(** * timer_bot: a shallow embedding of [main.go] and its lifecycle properties

    The program is a Telegram bot keeping one timer per chat.  Its state
    is the package-level map [activeTimers : map[int64]*Timer] guarded (in
    places) by the mutex [mu], the log file [timers.log], and the
    goroutines started by [startTimer].

    The embedding has three layers:
    - the pieces of Go's standard library the program calls
      ([time.ParseDuration], [Time.Format]), written out as functions;
    - the program's functions as terms of a small command type [prog],
      one command per Go statement that touches shared state;
    - two semantics of [prog]: [run], which executes one handler to its
      end on the main goroutine, and [cstep], which interleaves the
      commands of all live goroutines. *)

From Stdlib Require Import ZArith Lia Ascii String.
From stdpp Require Import base gmap strings list.

Local Open Scope Z_scope.

(** ** Byte strings

    A Go [string] is a sequence of bytes; [string] of the Standard Library
    is the same thing.  Literals in this file are UTF-8, as in [main.go]. *)



Definition dquote : string := String "034"%char EmptyString.
Definition newline : string := String "010"%char EmptyString.

Definition is_digit (c : ascii) : bool :=
  (48 <=? Z.of_nat (nat_of_ascii c)) && (Z.of_nat (nat_of_ascii c) <=? 57).

Definition digit_val (c : ascii) : Z := Z.of_nat (nat_of_ascii c) - 48.

Definition digit_char (d : Z) : ascii := ascii_of_nat (Z.to_nat (48 + d)).

Fixpoint count_char (c : ascii) (s : string) : nat :=
  match s with
  | EmptyString => O
  | String d r => ((if bool_decide (c = d) then 1 else 0) + count_char c r)%nat
  end.

Fixpoint take_string (n : nat) (s : string) : string :=
  match n, s with
  | S m, String c r => String c (take_string m r)
  | _, _ => EmptyString
  end.

Fixpoint zeros (n : nat) : string :=
  match n with
  | O => EmptyString
  | S m => String "0"%char (zeros m)
  end.

(** ** Machine integers

    A [uint64] or [int64] value is the [Z] it stands for; the result of
    an operation is brought back into range, as the hardware does. *)

Definition uint64 (x : Z) : Z := x mod 2 ^ 64.

Definition int64 (x : Z) : Z := (x + 2 ^ 63) mod 2 ^ 64 - 2 ^ 63.

(** ** Package [time]: [Duration], [ParseDuration], [Time], [Format]

    A [Duration] is an [int64] count of nanoseconds. *)

Module time.

Definition Duration := Z.

Definition Nanosecond : Duration := 1.
Definition Microsecond : Duration := 1000 * Nanosecond.
Definition Millisecond : Duration := 1000 * Microsecond.
Definition Second : Duration := 1000 * Millisecond.
Definition Minute : Duration := 60 * Second.
Definition Hour : Duration := 60 * Minute.

(** [unitMap] of package [time]; the two spellings of the micro sign are
    the UTF-8 encodings of U+00B5 and U+03BC. *)
Definition unitMap (u : string) : option Z :=
  if bool_decide (u = "ns") then Some Nanosecond
  else if bool_decide (u = "us") then Some Microsecond
  else if bool_decide (u = "µs") then Some Microsecond
  else if bool_decide (u = "μs") then Some Microsecond
  else if bool_decide (u = "ms") then Some Millisecond
  else if bool_decide (u = "s") then Some Second
  else if bool_decide (u = "m") then Some Minute
  else if bool_decide (u = "h") then Some Hour
  else None.

(** [leadingInt]: consume [[0-9]*]; [None] is the overflow error.  The
    accumulator [x] is a [uint64]: the first guard keeps [x] at most
    [2^63 / 10] before the multiplication, so [x * 10 + digit] stays
    below [2^64] and the wrap-around leaves it as it is. *)
Fixpoint leadingInt_from (x : Z) (s : string) : option (Z * string) :=
  match s with
  | EmptyString => Some (x, EmptyString)
  | String c rest =>
      if is_digit c then
        if x >? 2 ^ 63 / 10 then None
        else
          let x' := uint64 (x * 10 + digit_val c) in
          if x' >? 2 ^ 63 then None else leadingInt_from x' rest
      else Some (x, s)
  end.

Definition leadingInt (s : string) : option (Z * string) := leadingInt_from 0 s.

(** [leadingFraction]: consume [[0-9]*] after the period.  It returns the
    digits read as an integer [x], and [scale = 10^k] where [k] counts the
    digits that entered [x]; the model returns [k]. *)
Fixpoint leadingFraction_from (x : Z) (k : nat) (overflow : bool) (s : string)
  : Z * nat * string :=
  match s with
  | EmptyString => (x, k, EmptyString)
  | String c rest =>
      if is_digit c then
        if overflow then leadingFraction_from x k true rest
        else if x >? (2 ^ 63 - 1) / 10 then leadingFraction_from x k true rest
        else
          let y := uint64 (x * 10 + digit_val c) in
          if y >? 2 ^ 63 then leadingFraction_from x k true rest
          else leadingFraction_from y (S k) false rest
      else (x, k, s)
  end.

Definition leadingFraction (s : string) : Z * nat * string :=
  leadingFraction_from 0 O false s.

(** The unit name: the bytes up to the next period or digit. *)
Fixpoint span_unit (s : string) : string * string :=
  match s with
  | EmptyString => (EmptyString, EmptyString)
  | String c rest =>
      if bool_decide (c = "."%char) || is_digit c then (EmptyString, s)
      else let '(u, r) := span_unit rest in (String c u, r)
  end.

Definition starts_number (s : string) : bool :=
  match s with
  | String c _ => bool_decide (c = "."%char) || is_digit c
  | EmptyString => false
  end.

Section ParseDuration.

(** The one place where [ParseDuration] computes in [float64]:
    [uint64(float64(f) * (float64(unit) / scale))], the nanoseconds of
    a fractional part [f / 10^k] of [unit].  Binary floating point is
    not modelled; the function is a parameter, reached only by inputs
    that contain a period followed by a non-zero digit string. *)
Variable frac_nanos : Z -> nat -> Z -> Z.

(** One [number unit] group of the loop body; [d] is the running sum. *)
Definition parse_group (d : Z) (s : string) : option (Z * string) :=
  if negb (starts_number s) then None
  else
    match leadingInt s with
    | None => None
    | Some (v, s1) =>
        let pre := negb (String.length s =? String.length s1)%nat in
        let '(f, k, post, s2) :=
          match s1 with
          | String c r =>
              if bool_decide (c = "."%char) then
                let '(f, k, s2) := leadingFraction r in
                (f, k, negb (String.length r =? String.length s2)%nat, s2)
              else (0, O, false, s1)
          | EmptyString => (0, O, false, s1)
          end in
        if negb pre && negb post then None
        else
          let '(u, s3) := span_unit s2 in
          if bool_decide (u = EmptyString) then None
          else
            match unitMap u with
            | None => None
            | Some unit =>
                if v >? 2 ^ 63 / unit then None
                else
                  let v1 := uint64 (v * unit) in
                  let v2 := if f >? 0 then uint64 (v1 + frac_nanos f k unit) else v1 in
                  if (f >? 0) && (v2 >? 2 ^ 63) then None
                  else
                    let d' := uint64 (d + v2) in
                    if d' >? 2 ^ 63 then None else Some (d', s3)
            end
    end.

(** The loop [for s != ""]: every round consumes at least one byte, so
    the length of the input bounds the number of rounds. *)
Fixpoint parse_groups (fuel : nat) (d : Z) (s : string) : option Z :=
  match s with
  | EmptyString => Some d
  | _ =>
      match fuel with
      | O => None
      | S fuel' =>
          match parse_group d s with
          | None => None
          | Some (d', s') => parse_groups fuel' d' s'
          end
      end
  end.

Definition ParseDuration (orig : string) : option Duration :=
  let '(neg, s) :=
    match orig with
    | String c r =>
        if bool_decide (c = "-"%char) then (true, r)
        else if bool_decide (c = "+"%char) then (false, r)
        else (false, orig)
    | EmptyString => (false, orig)
    end in
  if bool_decide (s = "0") then Some 0
  else if bool_decide (s = EmptyString) then None
  else
    match parse_groups (String.length s) 0 s with
    | None => None
    | Some d =>
        if neg then Some (int64 (- int64 d))
        else if d >? 2 ^ 63 - 1 then None
        else Some (int64 d)
    end.

End ParseDuration.

(** The fractional part computed exactly and truncated; used to evaluate
    the model on concrete inputs. *)
Definition frac_exact (f : Z) (k : nat) (unit : Z) : Z := f * unit / 10 ^ Z.of_nat k.

(** *** [time.Time] and [Time.Format]

    The program only obtains instants from [time.Now] and prints them; it
    never compares or subtracts them.  A [Time] is therefore modelled by
    the civil fields its [Date] and [Clock] methods return. *)

Record Time := mkTime {
  year : Z; month : Z; day : Z; hour : Z; minute : Z; second : Z
}.

(** The zero value [time.Time{}]: January 1, year 1, 00:00:00 UTC. *)
Definition zeroTime : Time := mkTime 1 1 1 0 0 0.

Definition valid_time (t : Time) : bool :=
  (0 <=? year t) && (year t <=? 9999) &&
  (1 <=? month t) && (month t <=? 12) &&
  (1 <=? day t) && (day t <=? 31) &&
  (0 <=? hour t) && (hour t <=? 23) &&
  (0 <=? minute t) && (minute t <=? 59) &&
  (0 <=? second t) && (second t <=? 59).

(** Decimal digits of [u >= 0], most significant first. *)
Fixpoint utoa_fuel (fuel : nat) (u : Z) (acc : string) : string :=
  match fuel with
  | O => acc
  | S fuel' =>
      let acc' := String (digit_char (u mod 10)) acc in
      if u / 10 =? 0 then acc' else utoa_fuel fuel' (u / 10) acc'
  end.

Definition utoa (u : Z) : string := utoa_fuel 20 u EmptyString.

(** [appendInt] of package [time]: sign, zero padding to [width], digits. *)
Definition appendInt (x : Z) (width : nat) : string :=
  let ds := utoa (Z.abs x) in
  (if x <? 0 then "-" else EmptyString)
    +:+ zeros (width - String.length ds) +:+ ds.

(** [t.Format("2006-01-02 15:04:05")]. *)
Definition Format (t : Time) : string :=
  appendInt (year t) 4 +:+ "-" +:+ appendInt (month t) 2 +:+ "-"
    +:+ appendInt (day t) 2 +:+ " " +:+ appendInt (hour t) 2 +:+ ":"
    +:+ appendInt (minute t) 2 +:+ ":" +:+ appendInt (second t) 2.

End time.

(** ** The data model of [main.go] *)

Record Timer := mkTimer {
  Name : string;
  StartTime : time.Time;
  Duration : time.Duration;
  StopTime : option time.Time   (* [*time.Time], [None] is [nil] *)
}.

(** [Timer{}], every field at its zero value. *)
Definition emptyTimer : Timer := mkTimer EmptyString time.zeroTime 0 None.

(** A [*Timer] is an index into the heap of allocated timers. *)
Definition ptr := nat.

(** Field assignments through a [*Timer]. *)
Inductive assign :=
| SetName (s : string)
| SetStartTime (t : time.Time)
| SetDuration (d : time.Duration)
| SetStopTime (t : time.Time).

Definition apply_assign (a : assign) (t : Timer) : Timer :=
  match a with
  | SetName s => mkTimer s (StartTime t) (Duration t) (StopTime t)
  | SetStartTime x => mkTimer (Name t) x (Duration t) (StopTime t)
  | SetDuration d => mkTimer (Name t) (StartTime t) d (StopTime t)
  | SetStopTime x => mkTimer (Name t) (StartTime t) (Duration t) (Some x)
  end.

(** The text of an outgoing message.  Two messages print
    [duration.Minutes()], a [float64], with [%v]; that rendering is kept
    symbolic: [WithMinutes a d b] is [a], the minutes of [d], then [b]. *)
Inductive Text :=
| Plain (s : string)
| WithMinutes (before : string) (d : time.Duration) (after : string).

(** An inline keyboard button: label and callback data. *)
Definition Button := (string * string)%type.

(** What [bot.Send] is given: the chat, the text, the rows of buttons. *)
Record Msg := mkMsg {
  msg_chat : Z;
  msg_text : Text;
  msg_markup : list (list Button)
}.

Definition NewMessage (chatID : Z) (s : string) : Msg := mkMsg chatID (Plain s) [].

Definition logFile : string := "timers.log".

(** [os.O_WRONLY], [os.O_CREATE], [os.O_APPEND] (their Linux values). *)
Definition O_WRONLY : Z := 1.
Definition O_CREATE : Z := 64.
Definition O_APPEND : Z := 1024.

Definition has_flag (flag bit : Z) : bool := negb (Z.land flag bit =? 0).

(** An open file: its name, the flags it was opened with, its offset. *)
Record File := mkFile { f_name : string; f_flag : Z; f_off : nat }.

Definition fd := nat.

(** ** Commands

    A function body of [main.go] is a [prog]: a tree of the statements
    that touch the shared state or the outside world, in program order,
    each holding the rest of the body as its continuation.  Local
    computation (string building, comparisons, [ParseDuration]) is
    ordinary Rocq code between two commands.  Every function of the
    program returns nothing, so a finished body is just [Return]. *)

Inductive prog : Type :=
| Return
| Panic                                        (* nil dereference, unlock of an unlocked mutex *)
| MuLock (k : prog)                            (* mu.Lock() *)
| MuUnlock (k : prog)                          (* mu.Unlock() *)
| MapIndex (chatID : Z) (k : option ptr -> prog)  (* timer, exists := activeTimers[chatID] *)
| MapAssign (chatID : Z) (p : ptr) (k : prog)  (* activeTimers[chatID] = p *)
| MapDelete (chatID : Z) (k : prog)            (* delete(activeTimers, chatID) *)
| NewTimer (k : ptr -> prog)                   (* &Timer{} *)
| ReadTimer (p : ptr) (k : Timer -> prog)      (* reads of timer.Field in one expression *)
| AssignTimer (p : ptr) (a : assign) (k : prog)   (* timer.Field = v *)
| TimeNow (k : time.Time -> prog)              (* time.Now() *)
| TimeSleep (d : time.Duration) (k : prog)     (* time.Sleep(d) *)
| WakeAt (deadline : Z) (k : prog)             (* inside time.Sleep, until the clock reaches deadline *)
| BotSend (m : Msg) (k : prog)                 (* bot.Send(m) *)
| OsOpenFile (name : string) (flag : Z) (k : option fd -> prog)
| FileWriteString (f : fd) (s : string) (k : bool -> prog)
| FileClose (f : fd) (k : prog)
| OsReadFile (name : string) (k : option string -> prog)
| LogPrintln (s : string) (k : prog)           (* log.Println(s, err) *)
| GoSpawn (g : prog) (k : prog).               (* go func(){ g }() *)

(** [seq p q]: the call [p] followed by the rest [q] of the caller ([Return]
    in [p], early or not, resumes at [q]; a panic does not). *)
Fixpoint seq (p q : prog) : prog :=
  match p with
  | Return => q
  | Panic => Panic
  | MuLock k => MuLock (seq k q)
  | MuUnlock k => MuUnlock (seq k q)
  | MapIndex c k => MapIndex c (fun o => seq (k o) q)
  | MapAssign c p k => MapAssign c p (seq k q)
  | MapDelete c k => MapDelete c (seq k q)
  | NewTimer k => NewTimer (fun p => seq (k p) q)
  | ReadTimer p k => ReadTimer p (fun t => seq (k t) q)
  | AssignTimer p a k => AssignTimer p a (seq k q)
  | TimeNow k => TimeNow (fun t => seq (k t) q)
  | TimeSleep d k => TimeSleep d (seq k q)
  | WakeAt t k => WakeAt t (seq k q)
  | BotSend m k => BotSend m (seq k q)
  | OsOpenFile n fl k => OsOpenFile n fl (fun o => seq (k o) q)
  | FileWriteString f s k => FileWriteString f s (fun b => seq (k b) q)
  | FileClose f k => FileClose f (seq k q)
  | OsReadFile n k => OsReadFile n (fun o => seq (k o) q)
  | LogPrintln s k => LogPrintln s (seq k q)
  | GoSpawn g k => GoSpawn g (seq k q)
  end.

(** [timer.Field] for a [timer] read from the map: a nil pointer panics. *)
Definition deref (timer : option ptr) (k : ptr -> prog) : prog :=
  match timer with
  | Some p => k p
  | None => Panic
  end.

(** ** The functions of [main.go] *)

Definition action_start : string := "Запуск".
Definition action_stop : string := "Остановлен".
Definition in_progress : string := "В процессе".

(** The line [logTimer] builds with [fmt.Sprintf]. *)
Definition log_entry (timer : Timer) (action : string) : string :=
  action +:+ " | Название: " +:+ Name timer
    +:+ " | Начало: " +:+ time.Format (StartTime timer)
    +:+ " | Окончание: "
    +:+ match StopTime timer with
        | Some t => time.Format t
        | None => in_progress
        end
    +:+ newline.

Definition log_flags : Z := Z.lor (Z.lor O_APPEND O_CREATE) O_WRONLY.

Definition logTimer (timer : ptr) (action : string) : prog :=
  ReadTimer timer (fun t =>
  let entry := log_entry t action in
  OsOpenFile logFile log_flags (fun r =>
  match r with
  | None => LogPrintln "Ошибка записи в лог:" Return
  | Some file =>
      (* defer file.Close() *)
      FileWriteString file entry (fun ok =>
      if ok then FileClose file Return
      else LogPrintln "Ошибка при сохранении логов:" (FileClose file Return))
  end)).

Definition msg_no_timer : string := "Нет активного таймера.".

Definition stopped_text (name : string) (auto : bool) : string :=
  "Таймер " +:+ dquote +:+ name +:+ dquote +:+ " остановлен."
    +:+ (if auto then " ⏳ Время истекло!" else EmptyString).

Definition stopTimer (chatID : Z) (auto : bool) : prog :=
  MuLock (
  MapIndex chatID (fun timer =>
  match timer with
  | None =>
      MuUnlock (
      BotSend (NewMessage chatID msg_no_timer) Return)
  | Some p =>
      TimeNow (fun stopTime =>
      AssignTimer p (SetStopTime stopTime) (
      seq (logTimer p action_stop) (
      MapDelete chatID (
      MuUnlock (
      ReadTimer p (fun t =>
      BotSend (NewMessage chatID (stopped_text (Name t) auto)) Return))))))
  end)).

(** The body of the goroutine started by [startTimer], after its sleep. *)
Definition expire (chatID : Z) : prog :=
  MuLock (
  MapIndex chatID (fun timer =>
  MuUnlock (
  match timer with
  | Some _ => stopTimer chatID true
  | None => Return
  end))).

Definition countdown (chatID : Z) (duration : time.Duration) : prog :=
  TimeSleep duration (expire chatID).

Definition msg_not_configured : string := "Ошибка! Сначала настройте таймер.".

Definition started_msg (chatID : Z) (t : Timer) : Msg :=
  mkMsg chatID
    (WithMinutes ("Таймер " +:+ dquote +:+ Name t +:+ dquote +:+ " запущен на ")
                 (Duration t) " минут.")
    [[("Остановить таймер", "stop_timer")]].

Definition startTimer (chatID : Z) : prog :=
  MuLock (
  MapIndex chatID (fun timer =>
  MuUnlock (
  match timer with
  | None => BotSend (NewMessage chatID msg_not_configured) Return
  | Some p =>
      ReadTimer p (fun t =>
      if bool_decide (Name t = EmptyString) || (Duration t =? 0) then
        BotSend (NewMessage chatID msg_not_configured) Return
      else
        TimeNow (fun now =>
        AssignTimer p (SetStartTime now) (
        seq (logTimer p action_start) (
        ReadTimer p (fun t1 =>
        BotSend (started_msg chatID t1) (
        ReadTimer p (fun t2 =>
        GoSpawn (countdown chatID (Duration t2)) Return)))))))
  end))).

Definition msg_ask_minutes : string := "Введите время в минутах:".
Definition msg_bad_minutes : string := "Введите корректное время в минутах.".

Definition confirm_msg (chatID : Z) (name : string) (duration : time.Duration) : Msg :=
  mkMsg chatID
    (WithMinutes ("Запустить таймер " +:+ dquote +:+ name +:+ dquote +:+ " на ")
                 duration " минут?")
    [[("Запустить", "confirm_timer")]].

Definition logs_empty : string := "🔍 Логи пусты.".

Definition sendLogs (chatID : Z) : prog :=
  OsReadFile logFile (fun r =>
  match r with
  | None => BotSend (NewMessage chatID logs_empty) Return
  | Some data =>
      if (String.length data =? 0)%nat then BotSend (NewMessage chatID logs_empty) Return
      else BotSend (NewMessage chatID ("📜 Логи таймеров:" +:+ newline +:+ newline +:+ data)) Return
  end).

Definition sendMainMenu (chatID : Z) : prog :=
  BotSend (mkMsg chatID (Plain "Выберите действие:")
             [[("Старт таймера", "start_timer")]; [("Показать логи", "show_logs")]])
          Return.

Definition msg_ask_name : string := "Введите название таймера:".
Definition msg_use_buttons : string := "Используй кнопки для работы с таймерами.".

Definition handleCallback (chatID : Z) (data : string) : prog :=
  if bool_decide (data = "start_timer") then
    BotSend (NewMessage chatID msg_ask_name) (
    NewTimer (fun p =>
    MapAssign chatID p Return))
  else if bool_decide (data = "show_logs") then sendLogs chatID
  else if bool_decide (data = "confirm_timer") then startTimer chatID
  else if bool_decide (data = "stop_timer") then stopTimer chatID false
  else Return.

Section Handlers.

Variable frac_nanos : Z -> nat -> Z -> Z.

Definition handleTimerSetup (chatID : Z) (input : string) : prog :=
  MapIndex chatID (fun timer =>
  deref timer (fun p =>
  ReadTimer p (fun t =>
  if bool_decide (Name t = EmptyString) then
    AssignTimer p (SetName input) (
    BotSend (NewMessage chatID msg_ask_minutes) Return)
  else
    match time.ParseDuration frac_nanos (input +:+ "m") with
    | None => BotSend (NewMessage chatID msg_bad_minutes) Return
    | Some duration =>
        AssignTimer p (SetDuration duration) (
        ReadTimer p (fun t1 =>
        BotSend (confirm_msg chatID (Name t1) duration) Return))
    end))).

Definition handleMessage (chatID : Z) (text : string) : prog :=
  if bool_decide (text = "/start") then sendMainMenu chatID
  else if bool_decide (text = "/logs") then sendLogs chatID
  else
    MapIndex chatID (fun timer =>
    match timer with
    | Some p =>
        ReadTimer p (fun t =>
        if Duration t =? 0 then handleTimerSetup chatID text
        else BotSend (NewMessage chatID msg_use_buttons) Return)
    | None => BotSend (NewMessage chatID msg_use_buttons) Return
    end).

(** The updates [main] receives: a pressed button or a text message. *)
Inductive Update :=
| CallbackQuery (chatID : Z) (data : string)
| Message (chatID : Z) (text : string).

Definition handleUpdate (u : Update) : prog :=
  match u with
  | CallbackQuery chatID data => handleCallback chatID data
  | Message chatID text => handleMessage chatID text
  end.

(** The loop [for update := range updates] of [main]. *)
Fixpoint main_loop (updates : list Update) : prog :=
  match updates with
  | [] => Return
  | u :: rest => seq (handleUpdate u) (main_loop rest)
  end.

End Handlers.

(** ** The state of the process and of its surroundings *)

Record World := mkWorld {
  activeTimers : gmap Z ptr;       (* the package variable *)
  heap : list Timer;               (* every Timer allocated so far *)
  mu : bool;                       (* is the mutex held *)
  fs : gmap string string;         (* the files and their contents *)
  fdtab : gmap fd File;            (* the open files *)
  nextfd : fd;
  stderr : list string;            (* lines written by log.Println *)
  sent : list Msg;                 (* messages handed to bot.Send *)
  clock : Z                        (* monotonic clock, nanoseconds *)
}.

Definition with_activeTimers (m : gmap Z ptr) (w : World) : World :=
  mkWorld m (heap w) (mu w) (fs w) (fdtab w) (nextfd w) (stderr w) (sent w) (clock w).
Definition with_heap (h : list Timer) (w : World) : World :=
  mkWorld (activeTimers w) h (mu w) (fs w) (fdtab w) (nextfd w) (stderr w) (sent w) (clock w).
Definition with_mu (b : bool) (w : World) : World :=
  mkWorld (activeTimers w) (heap w) b (fs w) (fdtab w) (nextfd w) (stderr w) (sent w) (clock w).
Definition with_files (f : gmap string string) (t : gmap fd File) (n : fd) (w : World) : World :=
  mkWorld (activeTimers w) (heap w) (mu w) f t n (stderr w) (sent w) (clock w).
Definition with_stderr (l : list string) (w : World) : World :=
  mkWorld (activeTimers w) (heap w) (mu w) (fs w) (fdtab w) (nextfd w) l (sent w) (clock w).
Definition with_sent (l : list Msg) (w : World) : World :=
  mkWorld (activeTimers w) (heap w) (mu w) (fs w) (fdtab w) (nextfd w) (stderr w) l (clock w).
Definition with_clock (c : Z) (w : World) : World :=
  mkWorld (activeTimers w) (heap w) (mu w) (fs w) (fdtab w) (nextfd w) (stderr w) (sent w) c.

(** What the surroundings decide at a step: the reading of the wall
    clock, whether opening a file fails, and whether a write fails (after
    how many bytes). *)
Record Env := mkEnv {
  e_now : time.Time;
  e_open_err : bool;
  e_write_err : option nat
}.

Fixpoint drop_string (n : nat) (s : string) : string :=
  match n, s with
  | S m, String _ r => drop_string m r
  | _, _ => s
  end.

(** The file after [data] is written through the open file [f]: at the
    end with [O_APPEND], at the offset otherwise. *)
Definition written (f : File) (data content : string) : string :=
  if has_flag (f_flag f) O_APPEND then content +:+ data
  else take_string (f_off f) content +:+ data
         +:+ drop_string (f_off f + String.length data) content.

Definition file_content (w : World) (name : string) : string :=
  default EmptyString (fs w !! name).

(** [os.OpenFile]: fails when the surroundings say so, or when the file
    is missing and [O_CREATE] is not given; else a new descriptor. *)
Definition open_file (e : Env) (name : string) (flag : Z) (w : World)
  : World * option fd :=
  if e_open_err e then (w, None)
  else if bool_decide (fs w !! name = None) && negb (has_flag flag O_CREATE) then (w, None)
  else
    (with_files (<[name := file_content w name]> (fs w))
                (<[nextfd w := mkFile name flag 0]> (fdtab w))
                (S (nextfd w)) w,
     Some (nextfd w)).

(** [file.WriteString]: on a failing write a prefix of [s] may reach the
    file. *)
Definition write_string (e : Env) (f : fd) (s : string) (w : World) : World * bool :=
  match fdtab w !! f with
  | None => (w, false)
  | Some file =>
      if negb (has_flag (f_flag file) O_WRONLY) then (w, false)
      else
        let data := match e_write_err e with
                    | None => s
                    | Some n => take_string n s
                    end in
        (with_files
           (<[f_name file := written file data (file_content w (f_name file))]> (fs w))
           (<[f := mkFile (f_name file) (f_flag file) (f_off file + String.length data)]> (fdtab w))
           (nextfd w) w,
         bool_decide (e_write_err e = None))
  end.

Definition close_file (f : fd) (w : World) : World :=
  with_files (fs w) (delete f (fdtab w)) (nextfd w) w.

Definition read_file (e : Env) (name : string) (w : World) : option string :=
  if e_open_err e then None else fs w !! name.

(** ** One step of one goroutine

    [step e w p] is the effect of the first command of [p]: the new
    state, the rest of the goroutine, and the goroutines it started.
    [None]: the goroutine cannot move (it has ended, it waits for the
    mutex, or it sleeps). *)
Definition step (e : Env) (w : World) (p : prog) : option (World * prog * list prog) :=
  match p with
  | Return => None
  | Panic => None
  | MuLock k => if mu w then None else Some (with_mu true w, k, [])
  | MuUnlock k => if mu w then Some (with_mu false w, k, []) else Some (w, Panic, [])
  | MapIndex c k => Some (w, k (activeTimers w !! c), [])
  | MapAssign c p k => Some (with_activeTimers (<[c := p]> (activeTimers w)) w, k, [])
  | MapDelete c k => Some (with_activeTimers (delete c (activeTimers w)) w, k, [])
  | NewTimer k => Some (with_heap (heap w ++ [emptyTimer]) w, k (length (heap w)), [])
  | ReadTimer p k =>
      match heap w !! p with
      | Some t => Some (w, k t, [])
      | None => Some (w, Panic, [])
      end
  | AssignTimer p a k =>
      match heap w !! p with
      | Some t => Some (with_heap (<[p := apply_assign a t]> (heap w)) w, k, [])
      | None => Some (w, Panic, [])
      end
  | TimeNow k => Some (w, k (e_now e), [])
  | TimeSleep d k => Some (w, WakeAt (clock w + d) k, [])
  | WakeAt t k => if t <=? clock w then Some (w, k, []) else None
  | BotSend m k => Some (with_sent (sent w ++ [m]) w, k, [])
  | OsOpenFile n fl k => let '(w', r) := open_file e n fl w in Some (w', k r, [])
  | FileWriteString f s k => let '(w', ok) := write_string e f s w in Some (w', k ok, [])
  | FileClose f k => Some (close_file f w, k, [])
  | OsReadFile n k => Some (w, k (read_file e n w), [])
  | LogPrintln s k => Some (with_stderr (stderr w ++ [s]) w, k, [])
  | GoSpawn g k => Some (w, k, [g])
  end.

(** ** Running one body to its end

    [run e w p] executes [p] alone, with the surroundings fixed at [e]:
    how a handler runs on the main goroutine while no other goroutine
    moves.  A sleep lets the clock advance to its deadline. *)
Inductive status := Done | Crashed | Blocked.

Record Result := mkResult {
  r_status : status;
  r_world : World;
  r_spawned : list prog
}.

Definition also_spawned (gs : list prog) (r : Result) : Result :=
  mkResult (r_status r) (r_world r) (gs ++ r_spawned r).

Fixpoint run (e : Env) (w : World) (p : prog) : Result :=
  match p with
  | Return => mkResult Done w []
  | Panic => mkResult Crashed w []
  | MuLock k => if mu w then mkResult Blocked w [] else run e (with_mu true w) k
  | MuUnlock k => if mu w then run e (with_mu false w) k else mkResult Crashed w []
  | MapIndex c k => run e w (k (activeTimers w !! c))
  | MapAssign c p k => run e (with_activeTimers (<[c := p]> (activeTimers w)) w) k
  | MapDelete c k => run e (with_activeTimers (delete c (activeTimers w)) w) k
  | NewTimer k => run e (with_heap (heap w ++ [emptyTimer]) w) (k (length (heap w)))
  | ReadTimer p k =>
      match heap w !! p with
      | Some t => run e w (k t)
      | None => mkResult Crashed w []
      end
  | AssignTimer p a k =>
      match heap w !! p with
      | Some t => run e (with_heap (<[p := apply_assign a t]> (heap w)) w) k
      | None => mkResult Crashed w []
      end
  | TimeNow k => run e w (k (e_now e))
  | TimeSleep d k => run e (with_clock (Z.max (clock w) (clock w + d)) w) k
  | WakeAt t k => run e (with_clock (Z.max (clock w) t) w) k
  | BotSend m k => run e (with_sent (sent w ++ [m]) w) k
  | OsOpenFile n fl k => run e (open_file e n fl w).1 (k (open_file e n fl w).2)
  | FileWriteString f s k => run e (write_string e f s w).1 (k (write_string e f s w).2)
  | FileClose f k => run e (close_file f w) k
  | OsReadFile n k => run e w (k (read_file e n w))
  | LogPrintln s k => run e (with_stderr (stderr w ++ [s]) w) k
  | GoSpawn g k => also_spawned [g] (run e w k)
  end.

(** ** All goroutines together

    A configuration is the state and the pool of goroutines; number 0 is
    the main goroutine.  [sched_step i c e t] lets time pass to [t], then
    lets goroutine [i] do one command under [e].  A panic ends the whole
    process. *)
Definition Config := (World * list prog)%type.

Definition is_panic (p : prog) : bool :=
  match p with Panic => true | _ => false end.

Definition is_return (p : prog) : bool :=
  match p with Return => true | _ => false end.

Definition sched_step (i : nat) (e : Env) (t : Z) (c : Config) : option Config :=
  let '(w, pool) := c in
  if existsb is_panic pool then None
  else if t <? clock w then None
  else
    match pool !! i with
    | None => None
    | Some p =>
        match step e (with_clock t w) p with
        | None => None
        | Some (w', p', gs) => Some (w', <[i := p']> pool ++ gs)
        end
    end.

Definition cstep (c c' : Config) : Prop :=
  exists i e t, sched_step i e t c = Some c'.

Inductive csteps : Config -> Config -> Prop :=
| csteps_refl c : csteps c c
| csteps_step c1 c2 c3 : cstep c1 c2 -> csteps c2 c3 -> csteps c1 c3.

(** A schedule: which goroutine moves, under which surroundings, when. *)
Definition Schedule := list (nat * Env * Z).

Fixpoint run_schedule (s : Schedule) (c : Config) : option Config :=
  match s with
  | [] => Some c
  | (i, e, t) :: rest =>
      match sched_step i e t c with
      | None => None
      | Some c' => run_schedule rest c'
      end
  end.

(** ** Summaries used in the statements below *)

(** The timer a session has in the store, if any. *)
Definition timer_of (w : World) (chatID : Z) : option Timer :=
  match activeTimers w !! chatID with
  | Some p => heap w !! p
  | None => None
  end.

(** The state after the log file was opened (descriptor [nextfd w]),
    [data] was appended to it, and the descriptor was closed again. *)
Definition appended (data : string) (w : World) : World :=
  with_files (<[logFile := file_content w logFile +:+ data]> (fs w))
             (delete (nextfd w) (fdtab w))
             (S (nextfd w)) w.

Definition diag (line : string) (w : World) : World :=
  with_stderr (stderr w ++ [line]) w.

(** The state after one call of [logTimer] that builds [entry], by what
    the surroundings do to the file operations. *)
Definition logged (e : Env) (entry : string) (w : World) : World :=
  if e_open_err e then diag "Ошибка записи в лог:" w
  else
    match e_write_err e with
    | None => appended entry w
    | Some n => diag "Ошибка при сохранении логов:" (appended (take_string n entry) w)
    end.

(** No failure of the file operations. *)
Definition io_ok (e : Env) : Prop := e_open_err e = false /\ e_write_err e = None.

(** A string of the shape [DDDD-DD-DD DD:DD:DD]. *)
Definition is_timestamp (s : string) : bool :=
  match list_ascii_of_string s with
  | [y1; y2; y3; y4; s1; m1; m2; s2; d1; d2; s3; h1; h2; s4; n1; n2; s5; c1; c2] =>
      forallb is_digit [y1; y2; y3; y4; m1; m2; d1; d2; h1; h2; n1; n2; c1; c2]
      && bool_decide (s1 = "-"%char) && bool_decide (s2 = "-"%char)
      && bool_decide (s3 = " "%char)
      && bool_decide (s4 = ":"%char) && bool_decide (s5 = ":"%char)
  | _ => false
  end.

Definition nl : ascii := "010"%char.

(** The guard of [startTimer], given the session's timer. *)
Definition startable (t : Timer) : bool :=
  negb (bool_decide (Name t = EmptyString) || (Duration t =? 0)).

(** The state after [startTimer] passed its guard on the timer [t] at [p]. *)
Definition started_world (e : Env) (chatID : Z) (p : ptr) (t : Timer) (w : World) : World :=
  let t' := apply_assign (SetStartTime (e_now e)) t in
  with_sent (sent w ++ [started_msg chatID t'])
    (logged e (log_entry t' action_start)
       (with_heap (<[p := t']> (heap w)) w)).

(** The state after [stopTimer] found the timer [t] at [p]. *)
Definition stopped_world (e : Env) (chatID : Z) (auto : bool) (p : ptr) (t : Timer) (w : World)
  : World :=
  let t' := apply_assign (SetStopTime (e_now e)) t in
  with_sent (sent w ++ [NewMessage chatID (stopped_text (Name t) auto)])
    (with_activeTimers (delete chatID (activeTimers w))
       (logged e (log_entry t' action_stop)
          (with_heap (<[p := t']> (heap w)) w))).

(** The number of entries the store holds for one session. *)
Definition entries_for (chatID : Z) (w : World) : nat :=
  length (filter (fun kv => kv.1 = chatID) (map_to_list (activeTimers w))).

(** The state of a fresh process: nothing stored, nothing allocated, the
    mutex free, no file, nothing sent. *)
Definition initial_world : World :=
  mkWorld ∅ [] false ∅ ∅ 3%nat [] [] 0.

(** Surroundings in which every file operation succeeds. *)
Definition calm (now : time.Time) : Env := mkEnv now false None.

Definition two_digits (s : string) : bool :=
  match s with
  | String a (String b EmptyString) => is_digit a && is_digit b
  | _ => false
  end.

Definition four_digits (s : string) : bool :=
  match s with
  | String a (String b (String c (String d EmptyString))) =>
      is_digit a && is_digit b && is_digit c && is_digit d
  | _ => false
  end.

(** ** Sample sessions

    Concrete states, reached by running the main loop on a list of
    updates from the fresh process. *)

Definition sample_now : time.Time := time.mkTime 2024 5 17 9 30 0.
Definition sample_later : time.Time := time.mkTime 2024 5 17 9 31 0.

Definition after (updates : list Update) : World :=
  r_world (run (calm sample_now) initial_world (main_loop time.frac_exact updates)).

Definition begin_brew : list Update :=
  [CallbackQuery 7 "start_timer"; Message 7 "Brew"].

Definition w_naming : World := after [CallbackQuery 7 "start_timer"].
Definition w_sizing : World := after begin_brew.
Definition w_armed : World := after (begin_brew ++ [Message 7 "2"]).
Definition w_running : World :=
  after (begin_brew ++ [Message 7 "2"; CallbackQuery 7 "confirm_timer"]).
Definition w_negative : World := after (begin_brew ++ [Message 7 "-5"]).

(** ** The control points of the two stopping goroutines

    A goroutine that runs [stopTimer] or the body [expire] of a countdown
    is, at every moment, at one of the commands of these two functions.
    [pc] names these places; [prog_of] gives the rest of the body from
    each of them, and [pc_step] is [step] read on the names. *)
Section ControlPoints.

Variable chatID : Z.

Inductive pc :=
| AtStop (auto : bool)                       (* stopTimer(chatID, auto), at mu.Lock() *)
| AtExpire                                   (* the countdown after its sleep, at mu.Lock() *)
| ExpIndex                                   (* _, exists := activeTimers[chatID] *)
| ExpUnlock (found : bool)                   (* mu.Unlock(); if exists { ... } *)
| StIndex (auto : bool)                      (* timer, exists := activeTimers[chatID] *)
| StNow (auto : bool) (q : ptr)              (* stopTime := time.Now() *)
| StAssign (auto : bool) (q : ptr) (now : time.Time)   (* timer.StopTime = &stopTime *)
| StLogRead (auto : bool) (q : ptr)          (* logTimer: entry := fmt.Sprintf(...) *)
| StOpen (auto : bool) (q : ptr) (entry : string)      (* os.OpenFile *)
| StOpenFail (auto : bool) (q : ptr)         (* log.Println; return *)
| StWrite (auto : bool) (q : ptr) (f : fd) (entry : string)   (* file.WriteString(entry) *)
| StWriteFail (auto : bool) (q : ptr) (f : fd)          (* log.Println *)
| StClose (auto : bool) (q : ptr) (f : fd)   (* the deferred file.Close() *)
| StDelete (auto : bool) (q : ptr)           (* delete(activeTimers, chatID) *)
| StUnlock (auto : bool) (q : ptr)           (* mu.Unlock() *)
| StTail (auto : bool) (q : ptr)             (* message := fmt.Sprintf(..., timer.Name) *)
| StSend (auto : bool) (name : string)       (* bot.Send(message) *)
| StNoUnlock (auto : bool)                   (* !exists: mu.Unlock() *)
| StNoSend (auto : bool)                     (* bot.Send("no active timer") *)
| FinDone                                    (* returned, after the completion report *)
| FinNotice                                  (* returned, after the notice *)
| FinQuiet                                   (* the countdown returned, nothing to stop *)
| Crash.

Definition stop_report (auto : bool) (name : string) : prog :=
  BotSend (NewMessage chatID (stopped_text name auto)) Return.

Definition stop_tail (auto : bool) (q : ptr) : prog :=
  ReadTimer q (fun t => stop_report auto (Name t)).

Definition stop_unlock (auto : bool) (q : ptr) : prog := MuUnlock (stop_tail auto q).

Definition stop_delete (auto : bool) (q : ptr) : prog :=
  MapDelete chatID (stop_unlock auto q).

Definition stop_close (auto : bool) (q : ptr) (f : fd) : prog :=
  FileClose f (stop_delete auto q).

Definition stop_write_fail (auto : bool) (q : ptr) (f : fd) : prog :=
  LogPrintln "Ошибка при сохранении логов:" (stop_close auto q f).

Definition stop_write (auto : bool) (q : ptr) (f : fd) (entry : string) : prog :=
  FileWriteString f entry (fun ok =>
  seq (if ok then FileClose f Return
       else LogPrintln "Ошибка при сохранении логов:" (FileClose f Return))
      (stop_delete auto q)).

Definition stop_open_fail (auto : bool) (q : ptr) : prog :=
  LogPrintln "Ошибка записи в лог:" (stop_delete auto q).

Definition stop_open (auto : bool) (q : ptr) (entry : string) : prog :=
  OsOpenFile logFile log_flags (fun r =>
  seq (match r with
       | None => LogPrintln "Ошибка записи в лог:" Return
       | Some file =>
           FileWriteString file entry (fun ok =>
           if ok then FileClose file Return
           else LogPrintln "Ошибка при сохранении логов:" (FileClose file Return))
       end)
      (stop_delete auto q)).

Definition stop_no_send : prog := BotSend (NewMessage chatID msg_no_timer) Return.

Definition prog_of (c : pc) : prog :=
  match c with
  | AtStop auto => stopTimer chatID auto
  | AtExpire => expire chatID
  | ExpIndex =>
      MapIndex chatID (fun timer =>
      MuUnlock (match timer with
                | Some _ => stopTimer chatID true
                | None => Return
                end))
  | ExpUnlock found => MuUnlock (if found then stopTimer chatID true else Return)
  | StIndex auto =>
      MapIndex chatID (fun timer =>
      match timer with
      | None => MuUnlock stop_no_send
      | Some q =>
          TimeNow (fun stopTime =>
          AssignTimer q (SetStopTime stopTime) (
          seq (logTimer q action_stop) (stop_delete auto q)))
      end)
  | StNow auto q =>
      TimeNow (fun stopTime =>
      AssignTimer q (SetStopTime stopTime) (
      seq (logTimer q action_stop) (stop_delete auto q)))
  | StAssign auto q now =>
      AssignTimer q (SetStopTime now) (seq (logTimer q action_stop) (stop_delete auto q))
  | StLogRead auto q => seq (logTimer q action_stop) (stop_delete auto q)
  | StOpen auto q entry => stop_open auto q entry
  | StOpenFail auto q => stop_open_fail auto q
  | StWrite auto q f entry => stop_write auto q f entry
  | StWriteFail auto q f => stop_write_fail auto q f
  | StClose auto q f => stop_close auto q f
  | StDelete auto q => stop_delete auto q
  | StUnlock auto q => stop_unlock auto q
  | StTail auto q => stop_tail auto q
  | StSend auto name => stop_report auto name
  | StNoUnlock auto => MuUnlock stop_no_send
  | StNoSend auto => stop_no_send
  | FinDone | FinNotice | FinQuiet => Return
  | Crash => Panic
  end.

(** One command of a goroutine at [c]: the new state and the place it
    is at afterwards. *)
Definition pc_step (e : Env) (w : World) (c : pc) : option (World * pc) :=
  match c with
  | AtStop auto => if mu w then None else Some (with_mu true w, StIndex auto)
  | AtExpire => if mu w then None else Some (with_mu true w, ExpIndex)
  | ExpIndex =>
      Some (w, ExpUnlock (match activeTimers w !! chatID with Some _ => true | None => false end))
  | ExpUnlock found =>
      if mu w then Some (with_mu false w, if found then AtStop true else FinQuiet)
      else Some (w, Crash)
  | StIndex auto =>
      Some (w, match activeTimers w !! chatID with
               | Some q => StNow auto q
               | None => StNoUnlock auto
               end)
  | StNow auto q => Some (w, StAssign auto q (e_now e))
  | StAssign auto q now =>
      match heap w !! q with
      | Some t =>
          Some (with_heap (<[q := apply_assign (SetStopTime now) t]> (heap w)) w, StLogRead auto q)
      | None => Some (w, Crash)
      end
  | StLogRead auto q =>
      match heap w !! q with
      | Some t => Some (w, StOpen auto q (log_entry t action_stop))
      | None => Some (w, Crash)
      end
  | StOpen auto q entry =>
      Some ((open_file e logFile log_flags w).1,
            match (open_file e logFile log_flags w).2 with
            | Some f => StWrite auto q f entry
            | None => StOpenFail auto q
            end)
  | StOpenFail auto q =>
      Some (with_stderr (stderr w ++ ["Ошибка записи в лог:"]) w, StDelete auto q)
  | StWrite auto q f entry =>
      Some ((write_string e f entry w).1,
            if (write_string e f entry w).2 then StClose auto q f else StWriteFail auto q f)
  | StWriteFail auto q f =>
      Some (with_stderr (stderr w ++ ["Ошибка при сохранении логов:"]) w, StClose auto q f)
  | StClose auto q f => Some (close_file f w, StDelete auto q)
  | StDelete auto q =>
      Some (with_activeTimers (delete chatID (activeTimers w)) w, StUnlock auto q)
  | StUnlock auto q =>
      if mu w then Some (with_mu false w, StTail auto q) else Some (w, Crash)
  | StTail auto q =>
      match heap w !! q with
      | Some t => Some (w, StSend auto (Name t))
      | None => Some (w, Crash)
      end
  | StSend auto name =>
      Some (with_sent (sent w ++ [NewMessage chatID (stopped_text name auto)]) w, FinDone)
  | StNoUnlock auto =>
      if mu w then Some (with_mu false w, StNoSend auto) else Some (w, Crash)
  | StNoSend auto =>
      Some (with_sent (sent w ++ [NewMessage chatID msg_no_timer]) w, FinNotice)
  | FinDone | FinNotice | FinQuiet | Crash => None
  end.

End ControlPoints.

(** ** The race between a manual Stop and a countdown

    [agrees w1 w2]: the two states hold the same store, timers, files,
    descriptors and diagnostics; the mutex, the outbox and the clock may
    differ. *)
Definition agrees (w1 w2 : World) : Prop :=
  activeTimers w1 = activeTimers w2 /\ heap w1 = heap w2 /\ fs w1 = fs w2 /\
  fdtab w1 = fdtab w2 /\ nextfd w1 = nextfd w2 /\ stderr w1 = stderr w2.

Section RaceStates.

Variables (w : World) (chatID : Z) (p : ptr) (t : Timer).

Definition stamped (now : time.Time) : Timer := apply_assign (SetStopTime now) t.
Definition stop_entry (now : time.Time) : string := log_entry (stamped now) action_stop.
Definition w_stamped (now : time.Time) : World := with_heap (<[p := stamped now]> (heap w)) w.
Definition w_opened (now : time.Time) : World :=
  (open_file (mkEnv now false None) logFile log_flags (w_stamped now)).1.
Definition w_written (now : time.Time) (werr : option nat) : World :=
  (write_string (mkEnv now false werr) (nextfd w) (stop_entry now) (w_opened now)).1.
Definition w_diag (now : time.Time) (werr : option nat) : World :=
  diag "Ошибка при сохранении логов:" (w_written now werr).
Definition w_logged (now : time.Time) (oerr : bool) (werr : option nat) : World :=
  logged (mkEnv now oerr werr) (stop_entry now) (w_stamped now).
Definition w_final (now : time.Time) (oerr : bool) (werr : option nat) : World :=
  with_activeTimers (delete chatID (activeTimers w)) (w_logged now oerr werr).

(** The goroutine that found the timer, between its [mu.Lock] and its
    [mu.Unlock]: where it is, and what the state is there. *)
Definition in_critical (auto : bool) (c : pc) (now : time.Time) (oerr : bool) (werr : option nat)
    (w' : World) : Prop :=
  match c with
  | StIndex au => au = auto /\ agrees w' w
  | StNow au q => au = auto /\ q = p /\ agrees w' w
  | StAssign au q nw => au = auto /\ q = p /\ nw = now /\ agrees w' w
  | StLogRead au q => au = auto /\ q = p /\ agrees w' (w_stamped now)
  | StOpen au q en => au = auto /\ q = p /\ en = stop_entry now /\ agrees w' (w_stamped now)
  | StOpenFail au q => au = auto /\ q = p /\ oerr = true /\ agrees w' (w_stamped now)
  | StWrite au q f en =>
      au = auto /\ q = p /\ f = nextfd w /\ en = stop_entry now /\ oerr = false /\
      agrees w' (w_opened now)
  | StWriteFail au q f =>
      au = auto /\ q = p /\ f = nextfd w /\ oerr = false /\ is_Some werr /\
      agrees w' (w_written now werr)
  | StClose au q f =>
      au = auto /\ q = p /\ f = nextfd w /\ oerr = false /\
      agrees w' (match werr with None => w_written now None | Some _ => w_diag now werr end)
  | StDelete au q => au = auto /\ q = p /\ agrees w' (w_logged now oerr werr)
  | StUnlock au q => au = auto /\ q = p /\ agrees w' (w_final now oerr werr)
  | _ => False
  end.

(** The same goroutine after its [mu.Unlock]; [said]: it has sent its
    completion report. *)
Definition after_critical (auto : bool) (c : pc) (said : bool) : Prop :=
  match c with
  | StTail au q => au = auto /\ q = p /\ said = false
  | StSend au name => au = auto /\ name = Name t /\ said = false
  | FinDone => said = true
  | _ => False
  end.

(** The other goroutine, once the timer is gone: does it hold the mutex,
    has it sent the "no active timer" notice. *)
Definition came_second (auto : bool) (c : pc) (locked noticed : bool) : Prop :=
  match c with
  | AtStop au | StNoSend au => au = auto /\ locked = false /\ noticed = false
  | StIndex au | StNoUnlock au => au = auto /\ locked = true /\ noticed = false
  | FinNotice => locked = false /\ noticed = true
  | AtExpire | FinQuiet => auto = true /\ locked = false /\ noticed = false
  | ExpIndex | ExpUnlock false => auto = true /\ locked = true /\ noticed = false
  | _ => False
  end.

Definition sent_ok (auto : bool) (said noticed : bool) (l : list Msg) : Prop :=
  let report := NewMessage chatID (stopped_text (Name t) auto) in
  let notice := NewMessage chatID msg_no_timer in
  match said, noticed with
  | false, false => l = sent w
  | true, false => l = sent w ++ [report]
  | false, true => l = sent w ++ [notice]
  | true, true => l = sent w ++ [report; notice] \/ l = sent w ++ [notice; report]
  end.

(** The states the two goroutines can be in together, [a] the manual
    Stop and [b] the countdown. *)
Inductive race_inv : World -> pc -> pc -> Prop :=
| race_inv_idle w' b :
    mu w' = false -> agrees w' w -> sent w' = sent w ->
    b = AtExpire \/ b = AtStop true ->
    race_inv w' (AtStop false) b
| race_inv_check w' b :
    mu w' = true -> agrees w' w -> sent w' = sent w ->
    b = ExpIndex \/ b = ExpUnlock true ->
    race_inv w' (AtStop false) b
| race_inv_crit0 w' a b now oerr werr :
    mu w' = true -> sent w' = sent w -> in_critical false a now oerr werr w' ->
    b = AtExpire \/ b = AtStop true ->
    race_inv w' a b
| race_inv_crit1 w' b now oerr werr :
    mu w' = true -> sent w' = sent w -> in_critical true b now oerr werr w' ->
    race_inv w' (AtStop false) b
| race_inv_done0 w' a b now oerr werr said locked noticed :
    agrees w' (w_final now oerr werr) -> mu w' = locked ->
    after_critical false a said -> came_second true b locked noticed ->
    sent_ok false said noticed (sent w') ->
    race_inv w' a b
| race_inv_done1 w' a b now oerr werr said locked noticed :
    agrees w' (w_final now oerr werr) -> mu w' = locked ->
    after_critical true b said -> came_second false a locked noticed ->
    sent_ok true said noticed (sent w') ->
    race_inv w' a b.

End RaceStates.


(** One interleaving: the countdown checks the store, the manual Stop
    runs to its end, the countdown's [stopTimer] comes second. *)
Definition race_start : Config := (w_running, [stopTimer 7 false; expire 7]).

Definition race_schedule : Schedule :=
  replicate 3 (1%nat, calm sample_later, 0) ++ replicate 12 (0%nat, calm sample_later, 0)
    ++ replicate 4 (1%nat, calm sample_later, 0).

(** ** Two timers in one session

    A first timer is started and stopped by hand after twenty seconds; a
    second one is set up and started in the same session. *)
Definition session_A : list Update :=
  [CallbackQuery 7 "start_timer"; Message 7 "A"; Message 7 "1";
   CallbackQuery 7 "confirm_timer"].
Definition session_B : list Update :=
  [CallbackQuery 7 "stop_timer"; CallbackQuery 7 "start_timer"; Message 7 "B";
   Message 7 "10"; CallbackQuery 7 "confirm_timer"].
Definition sample_restart : time.Time := time.mkTime 2024 5 17 9 30 20.
Definition two_sessions : Config :=
  (initial_world, [main_loop time.frac_exact (session_A ++ session_B)]).
Definition first_minute : Schedule :=
  replicate 30 (0%nat, calm sample_now, 0) ++ [(1%nat, calm sample_now, 0)]
    ++ replicate 42 (0%nat, calm sample_restart, 20 * time.Second)
    ++ [(2%nat, calm sample_restart, 20 * time.Second)].
Definition late_wake : Schedule := replicate 16 (1%nat, calm sample_later, 60 * time.Second).

(** What is looked at in a configuration: the clock, the session's
    entry, the timers, the last message, and for every goroutine whether
    it sleeps (until when) and whether it has returned. *)
Definition deadline (p : prog) : option Z :=
  match p with WakeAt d _ => Some d | _ => None end.

Definition observed (c : Config) :=
  (clock c.1, activeTimers c.1 !! 7, heap c.1, last (sent c.1),
   map deadline c.2, map is_return c.2).

(** A session whose timer was given a name of two lines. *)
Definition w_two_lines : World :=
  after [CallbackQuery 7 "start_timer"; Message 7 ("Tea" +:+ newline +:+ "Time");
         Message 7 "2"].

(** ** What one handler does, by cases *)

(** A stored pointer is in order: it points at a timer, one that was
    not stopped. *)
Definition entry_ok (w : World) (p : ptr) : Prop :=
  match heap w !! p with
  | Some t => StopTime t = None
  | None => False
  end.

(** The store is in order: every entry is, and no two sessions share a
    timer. *)
Definition store_ok (w : World) : Prop :=
  (forall c p, activeTimers w !! c = Some p -> entry_ok w p) /\
  (forall c1 c2 p, activeTimers w !! c1 = Some p -> activeTimers w !! c2 = Some p -> c1 = c2).

Definition main_menu (chatID : Z) : Msg :=
  mkMsg chatID (Plain "Выберите действие:")
    [[("Старт таймера", "start_timer")]; [("Показать логи", "show_logs")]].

(** The text [sendLogs] replies with. *)
Definition logs_text (e : Env) (w : World) : string :=
  match read_file e logFile w with
  | None => logs_empty
  | Some data =>
      if (String.length data =? 0)%nat then logs_empty
      else "📜 Логи таймеров:" +:+ newline +:+ newline +:+ data
  end.

Definition reply (chatID : Z) (s : string) (w : World) : World :=
  with_sent (sent w ++ [NewMessage chatID s]) w.

Definition is_command (text : string) : Prop := text = "/start" \/ text = "/logs".

Definition known_data (data : string) : Prop :=
  data = "start_timer" \/ data = "show_logs" \/ data = "confirm_timer" \/ data = "stop_timer".

Section Handled.

Variable frac_nanos : Z -> nat -> Z -> Z.
Variables (e : Env) (w : World).

(** [handled u w' gs]: handling the update [u] in the state [w] under
    [e] ends in [w'], having started the goroutines [gs]. *)
Inductive handled : Update -> World -> list prog -> Prop :=
| handled_begin c :
    handled (CallbackQuery c "start_timer")
      (with_activeTimers (<[c := length (heap w)]> (activeTimers w))
         (with_heap (heap w ++ [emptyTimer]) (reply c msg_ask_name w))) []
| handled_show_logs c :
    handled (CallbackQuery c "show_logs") (reply c (logs_text e w) w) []
| handled_confirm_rejected c :
    match timer_of w c with Some t => startable t = false | None => True end ->
    handled (CallbackQuery c "confirm_timer") (reply c msg_not_configured w) []
| handled_confirm c p t :
    activeTimers w !! c = Some p -> heap w !! p = Some t -> startable t = true ->
    handled (CallbackQuery c "confirm_timer") (started_world e c p t w)
      [countdown c (Duration t)]
| handled_stop_absent c :
    activeTimers w !! c = None ->
    handled (CallbackQuery c "stop_timer") (reply c msg_no_timer w) []
| handled_stop c p t :
    activeTimers w !! c = Some p -> heap w !! p = Some t ->
    handled (CallbackQuery c "stop_timer") (stopped_world e c false p t w) []
| handled_unknown c data :
    ~ known_data data -> handled (CallbackQuery c data) w []
| handled_start c :
    handled (Message c "/start") (with_sent (sent w ++ [main_menu c]) w) []
| handled_logs c :
    handled (Message c "/logs") (reply c (logs_text e w) w) []
| handled_hint c text :
    ~ is_command text ->
    match timer_of w c with Some t => Duration t <> 0 | None => True end ->
    handled (Message c text) (reply c msg_use_buttons w) []
| handled_name c text p t :
    ~ is_command text ->
    activeTimers w !! c = Some p -> heap w !! p = Some t ->
    Duration t = 0 -> Name t = EmptyString ->
    handled (Message c text)
      (reply c msg_ask_minutes (with_heap (<[p := apply_assign (SetName text) t]> (heap w)) w))
      []
| handled_bad_minutes c text p t :
    ~ is_command text ->
    activeTimers w !! c = Some p -> heap w !! p = Some t ->
    Duration t = 0 -> Name t <> EmptyString ->
    time.ParseDuration frac_nanos (text +:+ "m") = None ->
    handled (Message c text) (reply c msg_bad_minutes w) []
| handled_minutes c text p t d :
    ~ is_command text ->
    activeTimers w !! c = Some p -> heap w !! p = Some t ->
    Duration t = 0 -> Name t <> EmptyString ->
    time.ParseDuration frac_nanos (text +:+ "m") = Some d ->
    handled (Message c text)
      (with_sent (sent w ++ [confirm_msg c (Name t) d])
         (with_heap (<[p := apply_assign (SetDuration d) t]> (heap w)) w))
      [].

End Handled.

(** The handlers run one after the other, each under its own
    surroundings. *)
Fixpoint serve (frac_nanos : Z -> nat -> Z -> Z) (us : list (Env * Update)) (w : World)
  : Result :=
  match us with
  | [] => mkResult Done w []
  | (e, u) :: rest =>
      let r := run e w (handleUpdate frac_nanos u) in
      match r_status r with
      | Done => also_spawned (r_spawned r) (serve frac_nanos rest (r_world r))
      | _ => r
      end
  end.

(** The session an update belongs to. *)
Definition chat_of (u : Update) : Z :=
  match u with CallbackQuery c _ | Message c _ => c end.

(** What one call of [logTimer] adds to the log file. *)
Definition log_written (e : Env) (entry : string) : string :=
  if e_open_err e then EmptyString
  else match e_write_err e with
       | None => entry
       | Some n => take_string n entry
       end.

(** The updates the program answers: every message, and the buttons it
    knows. *)
Definition answered (u : Update) : Prop :=
  match u with
  | CallbackQuery _ data => known_data data
  | Message _ _ => True
  end.

(** ** A Confirm that meets the countdown

    The running timer of the sample session is confirmed again at the
    moment its countdown wakes: the Confirm has read the store and passed
    its guard when the countdown stops the timer, and goes on after it. *)
Definition sample_expiry : time.Time := time.mkTime 2024 5 17 9 32 0.

Definition confirm_race_start : Config := (w_running, [startTimer 7; expire 7]).

Definition confirm_race : Schedule :=
  replicate 4 (0%nat, calm sample_expiry, 120 * time.Second)
    ++ replicate 15 (1%nat, calm sample_expiry, 120 * time.Second)
    ++ replicate 10 (0%nat, calm sample_expiry, 120 * time.Second).

(** The control points at which a goroutine of the race has returned. *)
Definition returned (c : pc) : bool :=
  match c with FinDone | FinNotice | FinQuiet => true | _ => false end.


(** * The control points agree with the program *)

Lemma prog_of_step chatID e w c :
  step e w (prog_of chatID c) =
    match pc_step chatID e w c with
    | Some (w', c') => Some (w', prog_of chatID c', [])
    | None => None
    end.
Proof.
  destruct c; cbn; try reflexivity.
  all: try (destruct (mu w); try destruct found; reflexivity).
  all: try (destruct (activeTimers w !! chatID); reflexivity).
  all: try (destruct (heap w !! q); reflexivity).
  - destruct (open_file e logFile log_flags w) as [w' [f|]]; reflexivity.
  - destruct (write_string e f entry w) as [w' []]; reflexivity.
Qed.

(** * Properties of the library model *)

Lemma check_range (P : Z -> bool) (n : Z) :
  forallb P (seqZ 0 n) = true -> forall x, 0 <= x < n -> P x = true.
Proof.
  intros H x Hx. rewrite forallb_forall in H. apply H.
  apply list_elem_of_In, elem_of_seqZ. lia.
Qed.

Lemma appendInt_two x : 0 <= x < 100 -> two_digits (time.appendInt x 2) = true.
Proof. apply (check_range (fun x => two_digits (time.appendInt x 2))). by vm_compute. Qed.

Lemma appendInt_four x : 0 <= x < 10000 -> four_digits (time.appendInt x 4) = true.
Proof. apply (check_range (fun x => four_digits (time.appendInt x 4))). by vm_compute. Qed.

Lemma valid_time_bounds t :
  time.valid_time t = true ->
  0 <= time.year t < 10000 /\ 0 <= time.month t < 100 /\ 0 <= time.day t < 100 /\
  0 <= time.hour t < 100 /\ 0 <= time.minute t < 100 /\ 0 <= time.second t < 100.
Proof.
  unfold time.valid_time. rewrite !andb_true_iff, !Z.leb_le. lia.
Qed.

Lemma Format_is_timestamp t :
  time.valid_time t = true -> is_timestamp (time.Format t) = true.
Proof.
  intros (Hy & Hm & Hd & Hh & Hn & Hs)%valid_time_bounds.
  apply appendInt_four in Hy. apply appendInt_two in Hm, Hd, Hh, Hn, Hs.
  unfold time.Format.
  destruct (time.appendInt (time.year t) 4) as [|y1 [|y2 [|y3 [|y4 [|]]]]]; try done.
  destruct (time.appendInt (time.month t) 2) as [|m1 [|m2 [|]]]; try done.
  destruct (time.appendInt (time.day t) 2) as [|d1 [|d2 [|]]]; try done.
  destruct (time.appendInt (time.hour t) 2) as [|h1 [|h2 [|]]]; try done.
  destruct (time.appendInt (time.minute t) 2) as [|n1 [|n2 [|]]]; try done.
  destruct (time.appendInt (time.second t) 2) as [|s1 [|s2 [|]]]; try done.
  cbn in *.
  repeat match goal with H : _ && _ = true |- _ => apply andb_true_iff in H as [? ?] end.
  cbv -[is_digit].
  repeat match goal with H : is_digit _ = true |- _ => rewrite H; clear H end.
  reflexivity.
Qed.

Lemma is_digit_not_nl c : is_digit c = true -> bool_decide (nl = c) = false.
Proof.
  intros H. apply bool_decide_eq_false. intros <-. by vm_compute in H.
Qed.

Lemma count_char_app c a b :
  count_char c (a +:+ b) = (count_char c a + count_char c b)%nat.
Proof.
  induction a as [|d a IH]; [done|].
  change (String d a +:+ b) with (String d (a +:+ b)). cbn. rewrite IH. lia.
Qed.

Lemma timestamp_no_nl s : is_timestamp s = true -> count_char nl s = O.
Proof.
  unfold is_timestamp. intros H.
  do 20 (destruct s as [|? s]; try done).
  cbn -[is_digit] in H.
  repeat match goal with H : _ && _ = true |- _ => apply andb_true_iff in H as [? ?] end.
  repeat match goal with H : bool_decide (_ = _) = true |- _ => apply bool_decide_eq_true in H; subst end.
  cbn -[is_digit nl].
  repeat match goal with H : is_digit _ = true |- _ => rewrite (is_digit_not_nl _ H); clear H end.
  reflexivity.
Qed.

(** * Running the functions of [main.go] *)

Lemma also_spawned_nil r : also_spawned [] r = r.
Proof. by destruct r. Qed.

Lemma also_spawned_app g1 g2 r : also_spawned g1 (also_spawned g2 r) = also_spawned (g1 ++ g2) r.
Proof. destruct r; unfold also_spawned; simpl. by rewrite app_assoc. Qed.

Lemma run_seq e p : forall w q,
  run e w (seq p q) =
    match r_status (run e w p) with
    | Done => also_spawned (r_spawned (run e w p)) (run e (r_world (run e w p)) q)
    | _ => run e w p
    end.
Proof.
  induction p; intros w q; simpl; try done;
    rewrite ?also_spawned_nil; try done;
    try (destruct (mu w); simpl; done);
    try (destruct (heap w !! p); simpl; done).
  rewrite IHp2. destruct (run e w p2) as [[] w' l]; simpl; try done.
Qed.

Lemma run_step e w p w' p' gs :
  step e w p = Some (w', p', gs) -> run e w p = also_spawned gs (run e w' p').
Proof.
  destruct p; simpl; intros Hs; try discriminate;
    try (destruct (mu w)); try (destruct (heap w !! p));
    try (destruct (open_file e name flag w) eqn:?);
    try (destruct (write_string e f s w) eqn:?);
    simplify_eq; simpl; rewrite ?also_spawned_nil; try done.
  all: case_match eqn:Hle; simplify_eq; apply Z.leb_le in Hle;
    rewrite Z.max_l by done; rewrite also_spawned_nil; destruct w'; reflexivity.
Qed.


Lemma world_eq a1 h1 m1 f1 t1 n1 s1 o1 c1 a2 h2 m2 f2 t2 n2 s2 o2 c2 :
  a1 = a2 -> h1 = h2 -> m1 = m2 -> f1 = f2 -> t1 = t2 -> n1 = n2 -> s1 = s2 -> o1 = o2 -> c1 = c2 ->
  mkWorld a1 h1 m1 f1 t1 n1 s1 o1 c1 = mkWorld a2 h2 m2 f2 t2 n2 s2 o2 c2.
Proof. by intros; subst. Qed.

Lemma take_string_length n s : (String.length (take_string n s) <= String.length s)%nat.
Proof. revert s; induction n; intros [|c s]; simpl; try lia. specialize (IHn s). lia. Qed.

Lemma logTimer_run e w p t action :
  heap w !! p = Some t ->
  run e w (logTimer p action) = mkResult Done (logged e (log_entry t action) w) [].
Proof.
  intros Hp. unfold logTimer, logged. simpl. rewrite Hp.
  unfold open_file.
  destruct (e_open_err e) eqn:Ho; simpl; [done|].
  rewrite andb_false_r. simpl.
  unfold write_string. simpl. rewrite lookup_insert_eq. simpl.
  unfold file_content at 1. simpl. rewrite lookup_insert_eq. simpl.
  destruct (e_write_err e) as [n|] eqn:Hw; simpl.
  all: f_equal; unfold diag, appended, close_file, with_files, with_stderr; simpl;
    apply world_eq; try done.
  all: try (by rewrite insert_insert_eq).
  all: by rewrite !delete_insert_eq.
Qed.

Arguments logTimer : simpl never.
Arguments logged : simpl never.

Lemma with_mu_unlock w : mu w = false -> with_mu false (with_mu true w) = w.
Proof. destruct w. cbn. by intros ->. Qed.

Lemma stopTimer_absent e w chatID auto :
  mu w = false -> activeTimers w !! chatID = None ->
  run e w (stopTimer chatID auto) =
    mkResult Done (with_sent (sent w ++ [NewMessage chatID msg_no_timer]) w) [].
Proof.
  intros Hmu Hnone. unfold stopTimer. cbn. rewrite Hmu. cbn. rewrite Hnone. cbn.
  change (with_sent ?l (with_mu false (with_mu true w)))
    with (with_sent l (with_mu false (with_mu true w))).
  replace (with_mu false (with_mu true w)) with w at 1; [done|].
  symmetry. by apply with_mu_unlock.
Qed.

Lemma heap_logged e s w : heap (logged e s w) = heap w.
Proof. unfold logged. by repeat case_match. Qed.
Lemma mu_logged e s w : mu (logged e s w) = mu w.
Proof. unfold logged. by repeat case_match. Qed.
Lemma activeTimers_logged e s w : activeTimers (logged e s w) = activeTimers w.
Proof. unfold logged. by repeat case_match. Qed.
Lemma sent_logged e s w : sent (logged e s w) = sent w.
Proof. unfold logged. by repeat case_match. Qed.

Lemma logged_under_mutex e s h a w :
  mu w = false ->
  with_mu false (with_activeTimers a (logged e s (with_heap h (with_mu true w))))
    = with_activeTimers a (logged e s (with_heap h w)).
Proof.
  intros Hmu. destruct w. cbn in Hmu. subst. unfold logged. by repeat case_match.
Qed.

Lemma stopTimer_present e w chatID auto p t :
  mu w = false -> activeTimers w !! chatID = Some p -> heap w !! p = Some t ->
  run e w (stopTimer chatID auto) =
    mkResult Done (stopped_world e chatID auto p t w) [].
Proof.
  intros Hmu Hsome Hp. unfold stopTimer. cbn. rewrite Hmu, Hsome. cbn.
  rewrite Hp. rewrite run_seq.
  assert (Hlen : (p < length (heap w))%nat) by (by eapply lookup_lt_Some).
  erewrite logTimer_run; last first.
  { simpl. by apply list_lookup_insert_eq. }
  simpl. rewrite mu_logged. simpl. rewrite heap_logged. simpl.
  rewrite list_lookup_insert_eq by done. simpl.
  unfold stopped_world. rewrite sent_logged, activeTimers_logged. simpl.
  rewrite also_spawned_nil. by rewrite logged_under_mutex.
Qed.

Arguments stopTimer : simpl never.
Arguments countdown : simpl never.

Lemma startTimer_rejected e w chatID :
  mu w = false ->
  match timer_of w chatID with
  | Some t => startable t = false
  | None => activeTimers w !! chatID = None
  end ->
  run e w (startTimer chatID) =
    mkResult Done (with_sent (sent w ++ [NewMessage chatID msg_not_configured]) w) [].
Proof.
  intros Hmu H. unfold startTimer, timer_of in *. cbn. rewrite Hmu. cbn.
  rewrite with_mu_unlock by done.
  destruct (activeTimers w !! chatID) as [p|] eqn:Hsome; cbn; [|done].
  destruct (heap w !! p) as [t|] eqn:Hp; [|done].
  unfold startable in H. apply negb_false_iff in H. by rewrite H.
Qed.

Lemma startTimer_accepted e w chatID p t :
  mu w = false -> activeTimers w !! chatID = Some p -> heap w !! p = Some t ->
  startable t = true ->
  run e w (startTimer chatID) =
    mkResult Done (started_world e chatID p t w) [countdown chatID (Duration t)].
Proof.
  intros Hmu Hsome Hp Hst. unfold startTimer. cbn. rewrite Hmu, Hsome. cbn.
  rewrite with_mu_unlock by done.
  rewrite Hp. unfold startable in Hst. apply negb_true_iff in Hst. rewrite Hst. cbn.
  rewrite Hp, run_seq.
  assert (Hlen : (p < length (heap w))%nat) by (by eapply lookup_lt_Some).
  erewrite logTimer_run; last first. { cbn. by apply list_lookup_insert_eq. }
  cbn. rewrite heap_logged. cbn. rewrite list_lookup_insert_eq by done. cbn.
  unfold started_world. by rewrite sent_logged.
Qed.

Lemma file_content_with_sent l w n : file_content (with_sent l w) n = file_content w n.
Proof. done. Qed.
Lemma file_content_with_activeTimers m w n :
  file_content (with_activeTimers m w) n = file_content w n.
Proof. done. Qed.
Lemma file_content_with_heap h w n : file_content (with_heap h w) n = file_content w n.
Proof. done. Qed.

Lemma content_logged_ok e s w :
  io_ok e -> file_content (logged e s w) logFile = file_content w logFile +:+ s.
Proof.
  intros [Ho Hw]. unfold logged. rewrite Ho, Hw.
  unfold file_content at 1. cbn. by rewrite lookup_insert_eq.
Qed.

Lemma stderr_logged_ok e s w : io_ok e -> stderr (logged e s w) = stderr w.
Proof. intros [Ho Hw]. unfold logged. by rewrite Ho, Hw. Qed.

Lemma stderr_logged_err e s w :
  e_open_err e = true \/ is_Some (e_write_err e) ->
  exists line, stderr (logged e s w) = stderr w ++ [line].
Proof.
  intros H. unfold logged.
  destruct (e_open_err e); [by eexists|].
  destruct H as [|[n ->]]; [done|]. by eexists.
Qed.

Lemma fdtab_logged e s w fd f :
  fdtab (logged e s w) !! fd = Some f -> fdtab w !! fd = Some f.
Proof.
  unfold logged. repeat case_match; cbn; try done.
  all: rewrite lookup_delete; case_decide; naive_solver.
Qed.

Lemma handleCallback_stop chatID : handleCallback chatID "stop_timer" = stopTimer chatID false.
Proof. reflexivity. Qed.

Lemma handleCallback_confirm chatID : handleCallback chatID "confirm_timer" = startTimer chatID.
Proof. reflexivity. Qed.

Lemma string_app_assoc (a b c : string) : (a +:+ b) +:+ c = a +:+ (b +:+ c).
Proof.
  induction a as [|x a IH]; [done|].
  change ((String x a +:+ b) +:+ c) with (String x ((a +:+ b) +:+ c)). by rewrite IH.
Qed.

Lemma startable_spec t :
  startable t = true <-> Name t <> EmptyString /\ Duration t <> 0.
Proof.
  unfold startable. rewrite negb_true_iff, orb_false_iff, bool_decide_eq_false, Z.eqb_neq.
  done.
Qed.

(** What a Confirm that passes the guard does, field by field. *)
Lemma startTimer_effect e w chatID p t :
  mu w = false -> activeTimers w !! chatID = Some p -> heap w !! p = Some t ->
  startable t = true ->
  let t' := mkTimer (Name t) (e_now e) (Duration t) (StopTime t) in
  let r := run e w (startTimer chatID) in
  r_status r = Done /\
  r_spawned r = [countdown chatID (Duration t)] /\
  mu (r_world r) = false /\
  activeTimers (r_world r) = activeTimers w /\
  heap (r_world r) = <[p := t']> (heap w) /\
  sent (r_world r) = sent w ++ [started_msg chatID t'] /\
  (io_ok e ->
   file_content (r_world r) logFile = file_content w logFile +:+ log_entry t' action_start /\
   stderr (r_world r) = stderr w) /\
  (e_open_err e = true \/ is_Some (e_write_err e) ->
   exists line, stderr (r_world r) = stderr w ++ [line]).
Proof.
  intros Hmu Hentry Htimer Hst t' r. subst r.
  rewrite (startTimer_accepted e w chatID p t) by done.
  unfold started_world. cbn.
  rewrite ?heap_logged, ?activeTimers_logged, ?sent_logged, ?mu_logged. cbn.
  repeat split; try done.
  - by rewrite file_content_with_sent, content_logged_ok, file_content_with_heap.
  - by rewrite stderr_logged_ok.
  - intros H. exact (stderr_logged_err _ _ (with_heap _ w) H).
Qed.

(** What a Stop that finds a timer does, field by field. *)
Lemma stopTimer_effect e w chatID auto p t :
  mu w = false -> activeTimers w !! chatID = Some p -> heap w !! p = Some t ->
  let t' := mkTimer (Name t) (StartTime t) (Duration t) (Some (e_now e)) in
  let r := run e w (stopTimer chatID auto) in
  r_status r = Done /\
  r_spawned r = [] /\
  mu (r_world r) = false /\
  activeTimers (r_world r) = delete chatID (activeTimers w) /\
  heap (r_world r) = <[p := t']> (heap w) /\
  sent (r_world r) = sent w ++ [NewMessage chatID (stopped_text (Name t) auto)] /\
  (io_ok e ->
   file_content (r_world r) logFile = file_content w logFile +:+ log_entry t' action_stop /\
   stderr (r_world r) = stderr w) /\
  (e_open_err e = true \/ is_Some (e_write_err e) ->
   exists line, stderr (r_world r) = stderr w ++ [line]).
Proof.
  intros Hmu Hentry Htimer t' r. subst r.
  rewrite (stopTimer_present e w chatID auto p t) by done.
  unfold stopped_world. cbn.
  rewrite ?heap_logged, ?activeTimers_logged, ?sent_logged, ?mu_logged. cbn.
  repeat split; try done.
  - rewrite file_content_with_sent, file_content_with_activeTimers.
    by rewrite content_logged_ok, file_content_with_heap.
  - by rewrite stderr_logged_ok.
  - intros H. exact (stderr_logged_err _ _ (with_heap _ w) H).
Qed.

(** C5: Stop on a session that has no timer in the store sends the
    "no active timer" notice and changes nothing else: no log line, no
    diagnostic, the store and the heap as they were, no goroutine. *)
Theorem C5_stop_without_timer e w chatID
  (Hmu : mu w = false) (Habsent : activeTimers w !! chatID = None) :
  run e w (handleCallback chatID "stop_timer") =
    mkResult Done (with_sent (sent w ++ [NewMessage chatID msg_no_timer]) w) [] /\
  fs (r_world (run e w (handleCallback chatID "stop_timer"))) = fs w /\
  stderr (r_world (run e w (handleCallback chatID "stop_timer"))) = stderr w /\
  activeTimers (r_world (run e w (handleCallback chatID "stop_timer"))) = activeTimers w /\
  heap (r_world (run e w (handleCallback chatID "stop_timer"))) = heap w.
Proof.
  rewrite handleCallback_stop, stopTimer_absent by done. by cbn.
Qed.

Lemma C5_stop_without_timer_witness :
  mu initial_world = false /\ activeTimers initial_world !! 7 = None /\
  fs (r_world (run (calm time.zeroTime) initial_world (handleCallback 7 "stop_timer")))
    = fs initial_world.
Proof.
  split; [reflexivity|]. split; [reflexivity|].
  apply (C5_stop_without_timer (calm time.zeroTime) initial_world 7); reflexivity.
Defined.

(** C10: Stop is not restricted to running timers.  On a session whose
    timer was never started (its name or its duration still unset, its
    start time the zero value) Stop succeeds: the stop time is set, the
    entry leaves the store, completion is reported, and the stop line
    written to the log carries the zero-value timestamp in its start
    field. *)
Theorem C10_stop_before_running e w chatID p t
  (Hmu : mu w = false)
  (Hentry : activeTimers w !! chatID = Some p) (Htimer : heap w !! p = Some t)
  (Hconfig : Name t = EmptyString \/ Duration t = 0)
  (Hunset : StartTime t = time.zeroTime) :
  let r := run e w (handleCallback chatID "stop_timer") in
  r_status r = Done /\
  heap (r_world r) !! p
    = Some (mkTimer (Name t) time.zeroTime (Duration t) (Some (e_now e))) /\
  activeTimers (r_world r) !! chatID = None /\
  sent (r_world r) = sent w ++ [NewMessage chatID (stopped_text (Name t) false)] /\
  (io_ok e ->
   file_content (r_world r) logFile =
     file_content w logFile +:+
       (action_stop +:+ " | Название: " +:+ Name t
          +:+ " | Начало: 0001-01-01 00:00:00 | Окончание: "
          +:+ time.Format (e_now e) +:+ newline)).
Proof.
  intros r. subst r. rewrite handleCallback_stop.
  rewrite (stopTimer_present e w chatID false p t) by done.
  assert (Hlen : (p < length (heap w))%nat) by (by eapply lookup_lt_Some).
  unfold stopped_world. cbn.
  rewrite ?heap_logged, ?activeTimers_logged, ?sent_logged. cbn.
  rewrite list_lookup_insert_eq by done. rewrite lookup_delete_eq.
  rewrite Hunset.
  repeat split; try done.
  intros Hio.
  rewrite file_content_with_sent, file_content_with_activeTimers.
  by rewrite content_logged_ok, file_content_with_heap.
Qed.

Lemma C10_stop_before_running_witness :
  activeTimers w_sizing !! 7 = Some 0%nat /\
  heap (r_world (run (calm sample_later) w_sizing (handleCallback 7 "stop_timer"))) !! 0%nat
    = Some (mkTimer "Brew" time.zeroTime 0 (Some sample_later)).
Proof.
  split; [reflexivity|].
  apply (C10_stop_before_running (calm sample_later) w_sizing 7 0%nat
           (mkTimer "Brew" time.zeroTime 0 None));
    solve [reflexivity | right; reflexivity].
Defined.

(** C2 (amended): Confirm passes its guard exactly when the session has a
    timer whose name is not empty and whose duration is not zero (the
    code compares the duration with zero, it does not ask for a positive
    one).  When the guard fails the only effect is the "not configured"
    notice: the start time is not set, nothing is logged, no countdown
    starts.  When it passes, the start time becomes the current time, one
    start line is appended to the log, and one countdown is started. *)
Theorem C2_confirm_guard e w chatID (Hmu : mu w = false) :
  let r := run e w (handleCallback chatID "confirm_timer") in
  (activeTimers w !! chatID = None \/
   (exists p t, activeTimers w !! chatID = Some p /\ heap w !! p = Some t /\
                (Name t = EmptyString \/ Duration t = 0)) ->
   r = mkResult Done (with_sent (sent w ++ [NewMessage chatID msg_not_configured]) w) []) /\
  (forall p t,
     activeTimers w !! chatID = Some p -> heap w !! p = Some t ->
     Name t <> EmptyString -> Duration t <> 0 ->
     let t' := mkTimer (Name t) (e_now e) (Duration t) (StopTime t) in
     r_status r = Done /\
     heap (r_world r) = <[p := t']> (heap w) /\
     activeTimers (r_world r) = activeTimers w /\
     sent (r_world r) = sent w ++ [started_msg chatID t'] /\
     r_spawned r = [countdown chatID (Duration t)] /\
     (io_ok e ->
      file_content (r_world r) logFile
        = file_content w logFile +:+ log_entry t' action_start)).
Proof.
  intros r. subst r. rewrite handleCallback_confirm. split.
  - intros H. apply startTimer_rejected; [done|]. unfold timer_of.
    destruct H as [->|(p & t & -> & -> & H)]; [done|].
    destruct (startable t) eqn:Hst; [|done].
    apply startable_spec in Hst as [? ?]. by destruct H.
  - intros p t Hentry Htimer Hname Hdur t'.
    destruct (startTimer_effect e w chatID p t) as (?&?&?&?&?&?&Hio&?); try done.
    { by apply startable_spec. }
    repeat split; try done. intros Hok. by apply Hio.
Qed.

Lemma C2_confirm_guard_witness :
  mu w_sizing = false /\
  r_world (run (calm sample_now) w_sizing (handleCallback 7 "confirm_timer"))
    = with_sent (sent w_sizing ++ [NewMessage 7 msg_not_configured]) w_sizing.
Proof.
  split; [reflexivity|].
  rewrite (proj1 (C2_confirm_guard (calm sample_now) w_sizing 7 eq_refl)); [reflexivity|].
  right. exists 0%nat, (mkTimer "Brew" time.zeroTime 0 None).
  repeat split; try reflexivity. by right.
Defined.

(** C2, as stated, fails: after the text "-5" the timer has a negative
    duration, so "duration > 0" does not hold, yet Confirm sets the start
    time, writes a start line and starts a countdown. *)
Lemma C2_counterexample :
  let r := run (calm sample_now) w_negative (handleCallback 7 "confirm_timer") in
  timer_of w_negative 7 = Some (mkTimer "Brew" time.zeroTime (- (5 * time.Minute)) None) /\
  ~ (- (5 * time.Minute) > 0) /\
  timer_of (r_world r) 7 = Some (mkTimer "Brew" sample_now (- (5 * time.Minute)) None) /\
  fs w_negative !! logFile = None /\
  fs (r_world r) !! logFile
    = Some ("Запуск | Название: Brew | Начало: 2024-05-17 09:30:00 | Окончание: В процессе"
              +:+ newline) /\
  r_spawned r = [countdown 7 (- (5 * time.Minute))].
Proof. cbv zeta. repeat split; try (vm_compute; reflexivity). by vm_compute. Qed.

(** C9: a timer that is already running can be confirmed again.  The
    guard looks only at the entry, the name and the duration, so the
    second Confirm overwrites the start time with the new current time,
    appends a second start line, and starts a second countdown for the
    same session. *)
Theorem C9_confirm_again e1 e2 w chatID p t
  (Hmu : mu w = false)
  (Hentry : activeTimers w !! chatID = Some p) (Htimer : heap w !! p = Some t)
  (Hname : Name t <> EmptyString) (Hdur : Duration t <> 0) :
  let r1 := run e1 w (handleCallback chatID "confirm_timer") in
  let r2 := run e2 (r_world r1) (handleCallback chatID "confirm_timer") in
  let t1 := mkTimer (Name t) (e_now e1) (Duration t) (StopTime t) in
  let t2 := mkTimer (Name t) (e_now e2) (Duration t) (StopTime t) in
  (r_status r1 = Done /\ heap (r_world r1) !! p = Some t1 /\
   activeTimers (r_world r1) !! chatID = Some p) /\
  r_status r2 = Done /\
  heap (r_world r2) !! p = Some t2 /\
  r_spawned r1 = [countdown chatID (Duration t)] /\
  r_spawned r2 = [countdown chatID (Duration t)] /\
  sent (r_world r2) = sent w ++ [started_msg chatID t1; started_msg chatID t2] /\
  (io_ok e1 -> io_ok e2 ->
   file_content (r_world r2) logFile
     = file_content w logFile +:+ log_entry t1 action_start +:+ log_entry t2 action_start).
Proof.
  intros r1 r2 t1 t2. subst r1 r2. rewrite !handleCallback_confirm.
  assert (Hlen : (p < length (heap w))%nat) by (by eapply lookup_lt_Some).
  destruct (startTimer_effect e1 w chatID p t) as (S1&G1&M1&A1&H1&T1&F1&_); try done.
  { by apply startable_spec. }
  set (w1 := r_world (run e1 w (startTimer chatID))) in *.
  assert (Htimer1 : heap w1 !! p = Some t1).
  { rewrite H1. by apply list_lookup_insert_eq. }
  destruct (startTimer_effect e2 w1 chatID p t1) as (S2&G2&M2&A2&H2&T2&F2&_); try done.
  { by rewrite A1. }
  { by apply startable_spec. }
  cbn in *. repeat split; try done.
  - by rewrite A1.
  - rewrite H2. apply list_lookup_insert_eq. by rewrite H1, length_insert.
  - rewrite T2, T1, <- app_assoc. done.
  - intros Hio1 Hio2. destruct (F1 Hio1) as [E1 _]. destruct (F2 Hio2) as [E2 _].
    by rewrite E2, E1, string_app_assoc.
Qed.

Lemma C9_confirm_again_witness :
  activeTimers w_armed !! 7 = Some 0%nat /\
  heap (r_world (run (calm sample_later)
                   (r_world (run (calm sample_now) w_armed (handleCallback 7 "confirm_timer")))
                   (handleCallback 7 "confirm_timer"))) !! 0%nat
    = Some (mkTimer "Brew" sample_later (2 * time.Minute) None).
Proof.
  split; [reflexivity|].
  apply (C9_confirm_again (calm sample_now) (calm sample_later) w_armed 7 0%nat
           (mkTimer "Brew" time.zeroTime (2 * time.Minute) None));
    solve [reflexivity | discriminate].
Defined.

(** C7: a failure to open or to write the log file is reported on the
    diagnostic channel and goes no further.  The Stop still sets the stop
    time, removes the entry and reports completion; the Confirm still
    sets the start time, reports the start and starts the countdown. *)
Theorem C7_log_failure_swallowed e w chatID p t
  (Hmu : mu w = false)
  (Hentry : activeTimers w !! chatID = Some p) (Htimer : heap w !! p = Some t)
  (Hfail : e_open_err e = true \/ is_Some (e_write_err e)) :
  (forall auto,
     let r := run e w (stopTimer chatID auto) in
     r_status r = Done /\
     heap (r_world r) !! p = Some (mkTimer (Name t) (StartTime t) (Duration t) (Some (e_now e))) /\
     activeTimers (r_world r) !! chatID = None /\
     sent (r_world r) = sent w ++ [NewMessage chatID (stopped_text (Name t) auto)] /\
     exists line, stderr (r_world r) = stderr w ++ [line]) /\
  (Name t <> EmptyString -> Duration t <> 0 ->
   let r := run e w (startTimer chatID) in
   let t' := mkTimer (Name t) (e_now e) (Duration t) (StopTime t) in
   r_status r = Done /\
   heap (r_world r) !! p = Some t' /\
   sent (r_world r) = sent w ++ [started_msg chatID t'] /\
   r_spawned r = [countdown chatID (Duration t)] /\
   exists line, stderr (r_world r) = stderr w ++ [line]).
Proof.
  assert (Hlen : (p < length (heap w))%nat) by (by eapply lookup_lt_Some).
  split.
  - intros auto r. subst r.
    destruct (stopTimer_effect e w chatID auto p t) as (?&?&?&HA&HH&?&_&Herr); try done.
    repeat split; try done.
    + rewrite HH. by apply list_lookup_insert_eq.
    + rewrite HA. apply lookup_delete_eq.
    + by apply Herr.
  - intros Hname Hdur r t'. subst r.
    destruct (startTimer_effect e w chatID p t) as (?&?&?&HA&HH&?&_&Herr); try done.
    { by apply startable_spec. }
    repeat split; try done.
    + rewrite HH. by apply list_lookup_insert_eq.
    + by apply Herr.
Qed.

Lemma C7_log_failure_swallowed_witness :
  activeTimers w_running !! 7 = Some 0%nat /\
  activeTimers
    (r_world (run (mkEnv sample_later true None) w_running (stopTimer 7 false))) !! 7 = None.
Proof.
  split; [reflexivity|].
  apply (C7_log_failure_swallowed (mkEnv sample_later true None) w_running 7 0%nat
           (mkTimer "Brew" sample_now (2 * time.Minute) None));
    solve [reflexivity | by left].
Defined.

(** * The store holds one timer per session *)

Lemma filter_key_length {A} (k : Z) (l : list (Z * A)) :
  NoDup l.*1 -> (length (filter (fun kv => kv.1 = k) l) <= 1)%nat.
Proof.
  induction l as [|[k' a] l IH]; [cbn; lia|].
  rewrite fmap_cons. intros [Hnotin Hnd]%NoDup_cons. specialize (IH Hnd).
  rewrite filter_cons. cbn [fst] in *. case_decide as Hk; [|done]. subst k'.
  destruct (filter (fun kv : Z * A => kv.1 = k) l) as [|[k2 a2] l'] eqn:Hf; [cbn; lia|].
  assert (Hin : (k2, a2) ∈ filter (fun kv : Z * A => kv.1 = k) l) by (rewrite Hf; left).
  apply list_elem_of_filter in Hin as [Hk2 Hin]. cbn in Hk2. subst k2.
  exfalso. apply Hnotin. apply list_elem_of_fmap. by exists (k, a2).
Qed.

Lemma entries_for_le chatID w : (entries_for chatID w <= 1)%nat.
Proof. apply filter_key_length, NoDup_fst_map_to_list. Qed.

Lemma entries_for_some chatID w p :
  activeTimers w !! chatID = Some p -> entries_for chatID w = 1%nat.
Proof.
  intros H. pose proof (entries_for_le chatID w) as Hle.
  apply elem_of_map_to_list in H.
  assert ((chatID, p) ∈ filter (fun kv : Z * ptr => kv.1 = chatID) (map_to_list (activeTimers w)))
    as Hin by (by apply list_elem_of_filter).
  unfold entries_for in *.
  destruct (filter _ _); [by apply not_elem_of_nil in Hin | cbn in *; lia].
Qed.

Lemma handleCallback_begin chatID :
  handleCallback chatID "start_timer" =
    BotSend (NewMessage chatID msg_ask_name) (NewTimer (fun p => MapAssign chatID p Return)).
Proof. reflexivity. Qed.

(** C8: the store is a map from sessions to timers, so in every state it
    holds at most one entry per session.  Begin-setup allocates a fresh
    empty timer and stores it under the session: an entry that was there
    is replaced (the old timer is no longer reachable from the store),
    the entries of other sessions stay, and the session has exactly one
    entry afterwards. *)
Theorem C8_one_timer_per_session e w chatID :
  let r := run e w (handleCallback chatID "start_timer") in
  (forall w0 : World, (entries_for chatID w0 <= 1)%nat) /\
  r_status r = Done /\
  activeTimers (r_world r) = <[chatID := length (heap w)]> (activeTimers w) /\
  heap (r_world r) = heap w ++ [emptyTimer] /\
  timer_of (r_world r) chatID = Some emptyTimer /\
  entries_for chatID (r_world r) = 1%nat /\
  (forall p, activeTimers w !! chatID = Some p -> (p < length (heap w))%nat ->
             activeTimers (r_world r) !! chatID <> Some p) /\
  (forall c, c <> chatID -> activeTimers (r_world r) !! c = activeTimers w !! c).
Proof.
  intros r. subst r. rewrite handleCallback_begin. cbn.
  split; [intros w0; apply entries_for_le|].
  split; [done|]. split; [done|]. split; [done|].
  assert (Hnew : timer_of
    (with_activeTimers (<[chatID:=length (heap w)]> (activeTimers w))
       (with_heap (heap w ++ [emptyTimer]) (with_sent (sent w ++ [NewMessage chatID msg_ask_name]) w)))
    chatID = Some emptyTimer).
  { unfold timer_of. cbn. rewrite lookup_insert_eq.
    by apply list_lookup_middle. }
  split; [done|].
  split. { apply (entries_for_some _ _ (length (heap w))). cbn. apply lookup_insert_eq. }
  split. { intros p _ Hp. rewrite lookup_insert_eq. intros [= <-]. lia. }
  intros c Hc. by rewrite lookup_insert_ne.
Qed.

(** Two begin-setups in a row leave one entry, a fresh empty timer. *)
Lemma begin_setup_twice :
  let w := after [CallbackQuery 7 "start_timer"; Message 7 "Brew"; CallbackQuery 7 "start_timer"] in
  entries_for 7 w = 1%nat /\ timer_of w 7 = Some emptyTimer /\
  heap w = [mkTimer "Brew" time.zeroTime 0 None; emptyTimer].
Proof. by vm_compute. Qed.

(** * Text input while the duration is unset *)

Lemma handleMessage_text frac chatID text :
  text <> "/start" -> text <> "/logs" ->
  handleMessage frac chatID text =
    MapIndex chatID (fun timer =>
      match timer with
      | Some p =>
          ReadTimer p (fun t =>
          if Duration t =? 0 then handleTimerSetup frac chatID text
          else BotSend (NewMessage chatID msg_use_buttons) Return)
      | None => BotSend (NewMessage chatID msg_use_buttons) Return
      end).
Proof.
  intros H1 H2. unfold handleMessage.
  rewrite !bool_decide_eq_false_2 by done. done.
Qed.

Lemma ParseDuration_10 frac : time.ParseDuration frac "10m" = Some (10 * time.Minute).
Proof. reflexivity. Qed.

Lemma ParseDuration_abc frac : time.ParseDuration frac "abcm" = None.
Proof. reflexivity. Qed.

(** The running sum is a [uint64]: two groups of [2^63] nanoseconds add
    up to zero, and the third group is the result. *)
Lemma ParseDuration_sum_wraps frac :
  time.ParseDuration frac "9223372036854775808ns9223372036854775808ns5m"
    = Some (5 * time.Minute).
Proof. vm_compute. reflexivity. Qed.

Lemma ParseDuration_minus5 frac : time.ParseDuration frac "-5m" = Some (- (5 * time.Minute)).
Proof. reflexivity. Qed.

(** C3 (amended): while the session's timer has a name and a zero
    duration, a text message (other than the two commands) is handed to
    [time.ParseDuration] with "m" appended.  If that fails, as for "abc",
    the timer and the rest of the state stay as they are and the user is
    asked again.  If it succeeds the result is stored as the duration,
    whatever its sign, and the confirmation prompt is sent; "10" gives
    exactly ten minutes. *)
Theorem C3_duration_input frac e w chatID p t input
  (Hentry : activeTimers w !! chatID = Some p) (Htimer : heap w !! p = Some t)
  (Hname : Name t <> EmptyString) (Hdur : Duration t = 0)
  (Hcmd : input <> "/start" /\ input <> "/logs") :
  let r := run e w (handleMessage frac chatID input) in
  (forall d, time.ParseDuration frac (input +:+ "m") = Some d ->
     r = mkResult Done
           (with_sent (sent w ++ [confirm_msg chatID (Name t) d])
              (with_heap (<[p := mkTimer (Name t) (StartTime t) d (StopTime t)]> (heap w)) w))
           []) /\
  (time.ParseDuration frac (input +:+ "m") = None ->
     r = mkResult Done (with_sent (sent w ++ [NewMessage chatID msg_bad_minutes]) w) []) /\
  time.ParseDuration frac ("10" +:+ "m") = Some (10 * time.Minute) /\
  time.ParseDuration frac ("abc" +:+ "m") = None.
Proof.
  intros r. subst r. destruct Hcmd as [Hc1 Hc2].
  rewrite handleMessage_text by done.
  assert (Hlen : (p < length (heap w))%nat) by (by eapply lookup_lt_Some).
  unfold handleTimerSetup. cbn. rewrite Hentry. cbn. rewrite Htimer, Hdur. cbn.
  rewrite Hentry. cbn. rewrite Htimer.
  rewrite bool_decide_eq_false_2 by done.
  split; [|split; [|split; reflexivity]].
  - intros d ->. cbn. rewrite Htimer. cbn.
    rewrite list_lookup_insert_eq by done. done.
  - intros ->. done.
Qed.

Lemma C3_duration_input_witness :
  activeTimers w_sizing !! 7 = Some 0%nat /\
  run (calm sample_now) w_sizing (handleMessage time.frac_exact 7 "10")
    = mkResult Done
        (with_sent (sent w_sizing ++ [confirm_msg 7 "Brew" (10 * time.Minute)])
           (with_heap (<[0%nat := mkTimer "Brew" time.zeroTime (10 * time.Minute) None]>
                         (heap w_sizing)) w_sizing))
        [].
Proof.
  split; [reflexivity|].
  apply (C3_duration_input time.frac_exact (calm sample_now) w_sizing 7 0%nat
           (mkTimer "Brew" time.zeroTime 0 None) "10");
    solve [reflexivity | discriminate | split; discriminate].
Defined.

(** C3, as stated, fails: the text is not read as a positive whole
    number of minutes.  "-5" is accepted and stores a negative duration;
    "1h30" is accepted and stores ninety minutes. *)
Lemma C3_counterexample :
  let r := run (calm sample_now) w_sizing (handleMessage time.frac_exact 7 "-5") in
  let r' := run (calm sample_now) w_sizing (handleMessage time.frac_exact 7 "1h30") in
  timer_of w_sizing 7 = Some (mkTimer "Brew" time.zeroTime 0 None) /\
  timer_of (r_world r) 7 = Some (mkTimer "Brew" time.zeroTime (- (5 * time.Minute)) None) /\
  sent (r_world r) = sent w_sizing ++ [confirm_msg 7 "Brew" (- (5 * time.Minute))] /\
  timer_of (r_world r') 7 = Some (mkTimer "Brew" time.zeroTime (90 * time.Minute) None).
Proof. cbv zeta. repeat split; vm_compute; reflexivity. Qed.

(** * The countdown

    What the body of a countdown does when it runs alone. *)

Lemma expire_absent e w chatID :
  mu w = false -> activeTimers w !! chatID = None ->
  run e w (expire chatID) = mkResult Done w [].
Proof.
  intros Hmu Hnone. unfold expire. cbn. rewrite Hmu. cbn. rewrite Hnone. cbn.
  by rewrite with_mu_unlock.
Qed.

Lemma expire_present e w chatID p t :
  mu w = false -> activeTimers w !! chatID = Some p -> heap w !! p = Some t ->
  run e w (expire chatID) = mkResult Done (stopped_world e chatID true p t w) [].
Proof.
  intros Hmu Hsome Hp. unfold expire. cbn. rewrite Hmu. cbn. rewrite Hsome. cbn.
  rewrite with_mu_unlock by done. by apply stopTimer_present.
Qed.

(** C4: the code breaks the claim at this input.  The countdown
    re-checks the store before it acts, but what it checks is whether the
    session has an entry, not whether the entry is the timer it was
    started for.  Timer A (one minute) is started at 09:30:00 and stopped
    by hand at 09:30:20; timer B (ten minutes) is set up and started at
    09:30:20 in the same session.  One minute after A's start A's
    countdown, which could not move a second earlier, wakes, finds the
    session's entry, and stops B as expired after forty seconds of its
    ten minutes; B's own countdown is still asleep. *)
Lemma C4_stale_countdown_stops_later_timer :
  let timer_A := mkTimer "A" sample_now (1 * time.Minute) (Some sample_restart) in
  let timer_B := mkTimer "B" sample_restart (10 * time.Minute) None in
  let c1 := run_schedule first_minute two_sessions in
  let c2 := run_schedule (first_minute ++ late_wake) two_sessions in
  observed <$> c1
    = Some (20 * time.Second, Some 1%nat, [timer_A; timer_B],
            Some (started_msg 7 timer_B),
            [None; Some (60 * time.Second); Some (620 * time.Second)],
            [true; false; false]) /\
  c1 ≫= sched_step 1 (calm sample_later) (59 * time.Second) = None /\
  observed <$> c2
    = Some (60 * time.Second, None,
            [timer_A; mkTimer "B" sample_restart (10 * time.Minute) (Some sample_later)],
            Some (NewMessage 7 (stopped_text "B" true)),
            [None; None; Some (620 * time.Second)],
            [true; true; false]).
Proof. cbv zeta. split; [|split]; vm_compute; reflexivity. Qed.

(** * [agrees]: equal up to the mutex, the outbox and the clock *)

Lemma agrees_refl v : agrees v v.
Proof. by repeat split. Qed.

Lemma agrees_trans v1 v2 v3 : agrees v1 v2 -> agrees v2 v3 -> agrees v1 v3.
Proof. intros (?&?&?&?&?&?) (?&?&?&?&?&?). repeat split; congruence. Qed.

Lemma agrees_with_clock c v1 v2 : agrees v1 v2 -> agrees (with_clock c v1) v2.
Proof. done. Qed.

Lemma agrees_with_mu b v1 v2 : agrees v1 v2 -> agrees (with_mu b v1) v2.
Proof. done. Qed.

Lemma agrees_with_sent l v1 v2 : agrees v1 v2 -> agrees (with_sent l v1) v2.
Proof. done. Qed.

Lemma agrees_with_heap f v1 v2 :
  agrees v1 v2 -> agrees (with_heap (f (heap v1)) v1) (with_heap (f (heap v2)) v2).
Proof. intros (?&?&?&?&?&?). repeat split; cbn; congruence. Qed.

Lemma agrees_delete c v1 v2 :
  agrees v1 v2 ->
  agrees (with_activeTimers (delete c (activeTimers v1)) v1)
         (with_activeTimers (delete c (activeTimers v2)) v2).
Proof. intros (?&?&?&?&?&?). repeat split; cbn; congruence. Qed.

Lemma agrees_diag line v1 v2 :
  agrees v1 v2 -> agrees (with_stderr (stderr v1 ++ [line]) v1) (diag line v2).
Proof. intros (?&?&?&?&?&?). repeat split; cbn; congruence. Qed.

Lemma agrees_close f v1 v2 : agrees v1 v2 -> agrees (close_file f v1) (close_file f v2).
Proof. intros (?&?&?&?&?&?). repeat split; cbn; congruence. Qed.

Lemma agrees_open e1 e2 n fl v1 v2 :
  e_open_err e1 = e_open_err e2 -> agrees v1 v2 ->
  agrees (open_file e1 n fl v1).1 (open_file e2 n fl v2).1 /\
  (open_file e1 n fl v1).2 = (open_file e2 n fl v2).2.
Proof.
  intros He (?&?&H3&?&?&?). unfold open_file, file_content. rewrite He, H3.
  repeat case_match; repeat split; cbn; congruence.
Qed.

Lemma agrees_write e1 e2 f s v1 v2 :
  e_write_err e1 = e_write_err e2 -> agrees v1 v2 ->
  agrees (write_string e1 f s v1).1 (write_string e2 f s v2).1 /\
  (write_string e1 f s v1).2 = (write_string e2 f s v2).2.
Proof.
  intros He (?&?&H3&H4&?&?). unfold write_string, file_content. rewrite He, H3, H4.
  repeat case_match; repeat split; cbn; congruence.
Qed.

Lemma open_file_ok e n fl v :
  e_open_err e = false -> has_flag fl O_CREATE = true ->
  open_file e n fl v =
    (with_files (<[n := file_content v n]> (fs v)) (<[nextfd v := mkFile n fl 0]> (fdtab v))
       (S (nextfd v)) v, Some (nextfd v)).
Proof. intros Ho Hc. unfold open_file. by rewrite Ho, Hc, andb_false_r. Qed.

Lemma open_file_err e n fl v : e_open_err e = true -> open_file e n fl v = (v, None).
Proof. intros Ho. unfold open_file. by rewrite Ho. Qed.

Lemma write_string_open e f s v file :
  fdtab v !! f = Some file -> has_flag (f_flag file) O_WRONLY = true ->
  write_string e f s v =
    let data := match e_write_err e with None => s | Some n => take_string n s end in
    (with_files
       (<[f_name file := written file data (file_content v (f_name file))]> (fs v))
       (<[f := mkFile (f_name file) (f_flag file) (f_off file + String.length data)]> (fdtab v))
       (nextfd v) v,
     bool_decide (e_write_err e = None)).
Proof. intros Hf Hfl. unfold write_string. by rewrite Hf, Hfl. Qed.

(** What the file operations leave alone. *)
Lemma open_file_frame e n fl v :
  mu (open_file e n fl v).1 = mu v /\ sent (open_file e n fl v).1 = sent v /\
  activeTimers (open_file e n fl v).1 = activeTimers v /\ heap (open_file e n fl v).1 = heap v.
Proof. unfold open_file. by repeat case_match. Qed.

Lemma write_string_frame e f s v :
  mu (write_string e f s v).1 = mu v /\ sent (write_string e f s v).1 = sent v /\
  activeTimers (write_string e f s v).1 = activeTimers v /\
  heap (write_string e f s v).1 = heap v.
Proof. unfold write_string. by repeat case_match. Qed.

Section RaceProof.

Variables (w : World) (chatID : Z) (p : ptr) (t : Timer).
Hypothesis Hmu : mu w = false.
Hypothesis Hentry : activeTimers w !! chatID = Some p.
Hypothesis Htimer : heap w !! p = Some t.

Lemma race_len : (p < length (heap w))%nat.
Proof. by eapply lookup_lt_Some. Qed.

Lemma race_inv_initial : race_inv w chatID p t w (AtStop false) AtExpire.
Proof. apply race_inv_idle; [done| |done|by left]. by repeat split. Qed.



Lemma opened_fd now :
  (open_file (mkEnv now false None) logFile log_flags (w_stamped w p t now)).2 = Some (nextfd w).
Proof. by rewrite open_file_ok. Qed.

Lemma written_ok now werr :
  (write_string (mkEnv now false werr) (nextfd w) (stop_entry t now) (w_opened w p t now)).2
    = bool_decide (werr = None).
Proof.
  unfold w_opened. rewrite open_file_ok by done.
  by erewrite write_string_open; [|apply lookup_insert_eq|].
Qed.

Lemma closed_logged now werr :
  agrees
    (close_file (nextfd w)
       match werr with
       | None => w_written w p t now None
       | Some _ => w_diag w p t now werr
       end)
    (w_logged w p t now false werr).
Proof.
  unfold w_logged, logged, w_diag, diag, w_written, w_opened.
  rewrite open_file_ok by done. cbn [fst e_open_err e_write_err].
  destruct werr as [n|].
  all: erewrite write_string_open; [|apply lookup_insert_eq|done].
  all: unfold appended, written, file_content.
  all: cbn; repeat split; cbn;
    rewrite ?lookup_insert_eq, ?insert_insert_eq, ?delete_insert_eq; try done.
Qed.

Lemma in_critical_step auto e tm w' c now oerr werr w'' c' :
  mu w' = true -> in_critical w chatID p t auto c now oerr werr w' ->
  pc_step chatID e (with_clock tm w') c = Some (w'', c') ->
  sent w'' = sent w' /\
  ((mu w'' = true /\ exists now' oerr' werr', in_critical w chatID p t auto c' now' oerr' werr' w'') \/
   (mu w'' = false /\ c' = StTail auto p /\ agrees w'' (w_final w chatID p t now oerr werr))).
Proof.
  pose proof race_len as Hlen.
  intros Hm Hc Hs.
  destruct c; cbn in Hc; try done; destruct_and?; subst.
  all: match goal with H : agrees _ _ |- _ => pose proof H as (Ha1&Ha2&Ha3&Ha4&Ha5&Ha6) end.
  all: cbn in Hs.
  all: rewrite ?Ha1, ?Ha2, ?Hm in Hs; cbn in Hs.
  all: rewrite ?Hentry, ?Htimer, ?(list_lookup_insert_eq _ _ _ Hlen) in Hs; cbn in Hs.
  all: simplify_eq.
  - split; [done|]. left. split; [done|]. by exists now, oerr, werr.
  - split; [done|]. left. split; [done|]. by exists (e_now e), oerr, werr.
  - split; [done|]. left. split; [done|]. exists now, oerr, werr. cbn.
    repeat split; try done.
  - split; [done|]. left. split; [done|]. by exists now, oerr, werr.
  - (* os.OpenFile *)
    destruct (open_file_frame e logFile log_flags (with_clock tm w')) as (-> & -> & _).
    split; [done|]. left. split; [done|].
    destruct (e_open_err e) eqn:Ho.
    + rewrite open_file_err by done. by exists now, true, werr.
    + destruct (agrees_open e (mkEnv now false None) logFile log_flags (with_clock tm w')
                  (w_stamped w p t now)) as [Hw Hr]; [done..|].
      rewrite Hr, opened_fd. by exists now, false, werr.
  - (* the open failed *)
    split; [done|]. left. split; [done|]. exists now, true, werr. cbn.
    repeat (split; [done|]). apply (agrees_diag _ (with_clock tm w')). done.
  - (* file.WriteString *)
    destruct (write_string_frame e (nextfd w) (stop_entry t now) (with_clock tm w'))
      as (-> & -> & _).
    split; [done|]. left. split; [done|].
    destruct (agrees_write e (mkEnv now false (e_write_err e)) (nextfd w) (stop_entry t now)
                (with_clock tm w') (w_opened w p t now)) as [Hw Hr]; [done..|].
    rewrite Hr, written_ok. exists now, false, (e_write_err e).
    destruct (e_write_err e) as [n|] eqn:He; cbn; repeat (split; [done|]); done.
  - (* the write failed *)
    split; [done|]. left. split; [done|]. exists now, false, werr. cbn.
    match goal with H : is_Some _ |- _ => destruct H as [n ->] end.
    repeat (split; [done|]). apply (agrees_diag _ (with_clock tm w')). done.
  - (* file.Close *)
    split; [done|]. left. split; [done|]. exists now, false, werr. cbn.
    repeat (split; [done|]).
    eapply agrees_trans; [|apply closed_logged]. apply (agrees_close _ (with_clock tm w')). done.
  - (* delete *)
    split; [done|]. left. split; [done|]. exists now, oerr, werr. cbn.
    repeat (split; [done|]).
    unfold w_final. split_and!; cbn; try done.
    unfold w_logged. by rewrite activeTimers_logged.
  - (* unlock *)
    split; [done|]. right. done.
Qed.

Lemma final_lookup now oerr werr :
  activeTimers (w_final w chatID p t now oerr werr) !! chatID = None.
Proof. apply lookup_delete_eq. Qed.

Lemma final_timer now oerr werr :
  heap (w_final w chatID p t now oerr werr) !! p = Some (stamped t now).
Proof.
  pose proof race_len. unfold w_final, w_logged. cbn. rewrite heap_logged. cbn.
  by apply list_lookup_insert_eq.
Qed.

(** A step of the winner after its critical section. *)
Lemma after_critical_step auto e tm w' c said now oerr werr w'' c' :
  agrees w' (w_final w chatID p t now oerr werr) -> after_critical p t auto c said ->
  pc_step chatID e (with_clock tm w') c = Some (w'', c') ->
  agrees w'' (w_final w chatID p t now oerr werr) /\ mu w'' = mu w' /\
  said = false /\
  ((after_critical p t auto c' false /\ sent w'' = sent w') \/
   (after_critical p t auto c' true /\
    sent w'' = sent w' ++ [NewMessage chatID (stopped_text (Name t) auto)])).
Proof.
  intros Ha Ht Hs. pose proof Ha as (Ha1&Ha2&_).
  destruct c; cbn in Ht; try done; destruct_and?; subst.
  - cbn in Hs. rewrite Ha2, final_timer in Hs. simplify_eq. cbn.
    split_and!; try done. by left.
  - cbn in Hs. simplify_eq. split_and!; try done. by right.
Qed.

(** A step of the goroutine that comes second. *)
Lemma came_second_step auto e tm w' c locked noticed now oerr werr w'' c' :
  agrees w' (w_final w chatID p t now oerr werr) -> mu w' = locked ->
  came_second auto c locked noticed ->
  pc_step chatID e (with_clock tm w') c = Some (w'', c') ->
  agrees w'' (w_final w chatID p t now oerr werr) /\
  noticed = false /\
  exists locked' noticed',
    came_second auto c' locked' noticed' /\ mu w'' = locked' /\
    ((noticed' = false /\ sent w'' = sent w') \/
     (noticed' = true /\ sent w'' = sent w' ++ [NewMessage chatID msg_no_timer])).
Proof.
  intros Ha Hm Hl Hs. pose proof Ha as (Ha1&Ha2&_).
  destruct c as [| | |[]| | | | | | | | | | | | | | | | | | |]; cbn in Hl; try done;
    destruct_and?; subst.
  all: cbn in Hs; rewrite ?Ha1, ?final_lookup in Hs.
  all: repeat match goal with H : mu _ = _ |- _ => rewrite H in Hs end.
  all: simplify_eq.
  all: split; [done|]; split; [done|].
  all: try (eexists _, false; cbn; split_and!; try done; by left).
  all: try (eexists _, true; cbn; split_and!; try done; by right).
Qed.


Lemma sent_ok_said auto noticed l :
  sent_ok w chatID t auto false noticed l ->
  sent_ok w chatID t auto true noticed (l ++ [NewMessage chatID (stopped_text (Name t) auto)]).
Proof.
  destruct noticed; cbn; intros ->; [right|]; by rewrite <- ?app_assoc.
Qed.

Lemma sent_ok_noticed auto said l :
  sent_ok w chatID t auto said false l ->
  sent_ok w chatID t auto said true (l ++ [NewMessage chatID msg_no_timer]).
Proof.
  destruct said; cbn; intros ->; [left|]; by rewrite <- ?app_assoc.
Qed.

(** The invariant is kept by a step of the first goroutine... *)
Lemma race_inv_step0 e tm w' a b w'' a' :
  race_inv w chatID p t w' a b ->
  pc_step chatID e (with_clock tm w') a = Some (w'', a') ->
  race_inv w chatID p t w'' a' b.
Proof.
  intros HI Hs. destruct HI as [w' b Hm Ha Hsent Hb | w' b Hm Ha Hsent Hb
    | w' a b now oerr werr Hm Hsent Hc Hb | w' b now oerr werr Hm Hsent Hc
    | w' a b now oerr werr said locked noticed Ha Hm Ht Hl Hsent
    | w' a b now oerr werr said locked noticed Ha Hm Ht Hl Hsent ].
  - cbn in Hs. rewrite Hm in Hs. simplify_eq.
    by apply (race_inv_crit0 _ _ _ _ _ _ _ time.zeroTime false None).
  - cbn in Hs. rewrite Hm in Hs. done.
  - destruct (in_critical_step _ _ _ _ _ _ _ _ _ _ Hm Hc Hs)
      as [Hsame [[Hm' (now' & oerr' & werr' & Hc')] | (Hm' & -> & Ha')]].
    + eapply race_inv_crit0; [done|congruence|done|done].
    + eapply (race_inv_done0 _ _ _ _ _ _ _ _ _ _ false false false); try done.
      * by destruct Hb as [-> | ->].
      * cbn. congruence.
  - cbn in Hs. rewrite Hm in Hs. done.
  - destruct (after_critical_step _ _ _ _ _ _ _ _ _ _ _ Ha Ht Hs)
      as (Ha' & Hm' & -> & [[Ht' Hs'] | [Ht' Hs']]).
    + apply (race_inv_done0 _ _ _ _ _ _ _ now oerr werr false locked noticed); try done;
        first [congruence | by rewrite Hs'].
    + apply (race_inv_done0 _ _ _ _ _ _ _ now oerr werr true locked noticed); try done;
        first [congruence | rewrite Hs'; by apply sent_ok_said].
  - destruct (came_second_step _ _ _ _ _ _ _ _ _ _ _ _ Ha Hm Hl Hs)
      as (Ha' & -> & locked' & noticed' & Hl' & Hm' & [[-> Hs'] | [-> Hs']]).
    + apply (race_inv_done1 _ _ _ _ _ _ _ now oerr werr said locked' false); try done;
        first [congruence | by rewrite Hs'].
    + apply (race_inv_done1 _ _ _ _ _ _ _ now oerr werr said locked' true); try done;
        first [congruence | rewrite Hs'; by apply sent_ok_noticed].
Qed.

(** ... and by a step of the second. *)
Lemma race_inv_step1 e tm w' a b w'' b' :
  race_inv w chatID p t w' a b ->
  pc_step chatID e (with_clock tm w') b = Some (w'', b') ->
  race_inv w chatID p t w'' a b'.
Proof.
  intros HI Hs. destruct HI as [w' b Hm Ha Hsent Hb | w' b Hm Ha Hsent Hb
    | w' a b now oerr werr Hm Hsent Hc Hb | w' b now oerr werr Hm Hsent Hc
    | w' a b now oerr werr said locked noticed Ha Hm Ht Hl Hsent
    | w' a b now oerr werr said locked noticed Ha Hm Ht Hl Hsent ].
  - destruct Hb as [-> | ->]; cbn in Hs; rewrite Hm in Hs; simplify_eq.
    + apply race_inv_check; try done. by left.
    + by apply (race_inv_crit1 _ _ _ _ _ _ time.zeroTime false None).
  - destruct Ha as (Ha1 & Ha'). 
    destruct Hb as [-> | ->]; cbn in Hs; rewrite ?Hm, ?Ha1, ?Hentry in Hs; simplify_eq.
    + apply race_inv_check; try done. by right.
    + apply race_inv_idle; try done. by right.
  - destruct Hb as [-> | ->]; cbn in Hs; rewrite Hm in Hs; done.
  - destruct (in_critical_step _ _ _ _ _ _ _ _ _ _ Hm Hc Hs)
      as [Hsame [[Hm' (now' & oerr' & werr' & Hc')] | (Hm' & -> & Ha')]].
    + eapply race_inv_crit1; [done|congruence|done].
    + eapply (race_inv_done1 _ _ _ _ _ _ _ _ _ _ false false false); try done.
      cbn. congruence.
  - destruct (came_second_step _ _ _ _ _ _ _ _ _ _ _ _ Ha Hm Hl Hs)
      as (Ha' & -> & locked' & noticed' & Hl' & Hm' & [[-> Hs'] | [-> Hs']]).
    + apply (race_inv_done0 _ _ _ _ _ _ _ now oerr werr said locked' false); try done;
        first [congruence | by rewrite Hs'].
    + apply (race_inv_done0 _ _ _ _ _ _ _ now oerr werr said locked' true); try done;
        first [congruence | rewrite Hs'; by apply sent_ok_noticed].
  - destruct (after_critical_step _ _ _ _ _ _ _ _ _ _ _ Ha Ht Hs)
      as (Ha' & Hm' & -> & [[Ht' Hs'] | [Ht' Hs']]).
    + apply (race_inv_done1 _ _ _ _ _ _ _ now oerr werr false locked noticed); try done;
        first [congruence | by rewrite Hs'].
    + apply (race_inv_done1 _ _ _ _ _ _ _ now oerr werr true locked noticed); try done;
        first [congruence | rewrite Hs'; by apply sent_ok_said].
Qed.


Lemma sched_step_pcs i e tm w' a b c' :
  sched_step i e tm (w', [prog_of chatID a; prog_of chatID b]) = Some c' ->
  (exists w'' a', pc_step chatID e (with_clock tm w') a = Some (w'', a') /\
                  c' = (w'', [prog_of chatID a'; prog_of chatID b])) \/
  (exists w'' b', pc_step chatID e (with_clock tm w') b = Some (w'', b') /\
                  c' = (w'', [prog_of chatID a; prog_of chatID b'])).
Proof.
  unfold sched_step. destruct (existsb _ _); [done|]. destruct (tm <? clock w'); [done|].
  destruct i as [|[|i]]; cbn [lookup list_lookup]; [| |done].
  - rewrite prog_of_step. destruct (pc_step _ _ _ a) as [[w'' a']|]; [|done].
    intros [= <-]. left. by exists w'', a'.
  - rewrite prog_of_step. destruct (pc_step _ _ _ b) as [[w'' b']|]; [|done].
    intros [= <-]. right. by exists w'', b'.
Qed.

Lemma race_inv_run s : forall w' a b c',
  race_inv w chatID p t w' a b ->
  run_schedule s (w', [prog_of chatID a; prog_of chatID b]) = Some c' ->
  exists w'' a' b', c' = (w'', [prog_of chatID a'; prog_of chatID b']) /\
                    race_inv w chatID p t w'' a' b'.
Proof.
  induction s as [|[[i e] tm] s IH]; intros w' a b c' HI Hrun; cbn [run_schedule] in Hrun.
  - injection Hrun as <-. by exists w', a, b.
  - destruct (sched_step i e tm _) as [c2|] eqn:Hs; [|done].
    apply sched_step_pcs in Hs as [(w'' & a' & Hs & ->) | (w'' & b' & Hs & ->)].
    + eapply IH; [|done]. by eapply race_inv_step0.
    + eapply IH; [|done]. by eapply race_inv_step1.
Qed.


End RaceProof.



(** * One handler at a time *)

Lemma sendLogs_run e w c :
  run e w (sendLogs c) = mkResult Done (reply c (logs_text e w) w) [].
Proof.
  unfold sendLogs, logs_text, reply. cbn.
  destruct (read_file e logFile w) as [data|]; [|done].
  by destruct (String.length data =? 0)%nat.
Qed.

Lemma handleUpdate_handled frac e w u :
  mu w = false ->
  (forall c p, activeTimers w !! c = Some p -> is_Some (heap w !! p)) ->
  let r := run e w (handleUpdate frac u) in
  r_status r = Done /\ handled frac e w u (r_world r) (r_spawned r).
Proof.
  intros Hmu Hheap r. subst r. destruct u as [c data | c text]; cbn [handleUpdate].
  - unfold handleCallback. repeat case_bool_decide; subst.
    + cbn. split; [done|]. apply handled_begin.
    + rewrite sendLogs_run. split; [done|]. apply handled_show_logs.
    + destruct (activeTimers w !! c) as [p|] eqn:Hp.
      * destruct (Hheap _ _ Hp) as [t Ht].
        destruct (startable t) eqn:Hst.
        -- rewrite (startTimer_accepted e w c p t) by done. split; [done|].
           by apply handled_confirm.
        -- rewrite startTimer_rejected; [| done | by unfold timer_of; rewrite Hp, Ht].
           split; [done|]. apply handled_confirm_rejected. by unfold timer_of; rewrite Hp, Ht.
      * rewrite startTimer_rejected; [| done | by unfold timer_of; rewrite Hp].
        split; [done|]. apply handled_confirm_rejected. by unfold timer_of; rewrite Hp.
    + destruct (activeTimers w !! c) as [p|] eqn:Hp.
      * destruct (Hheap _ _ Hp) as [t Ht].
        rewrite (stopTimer_present e w c false p t) by done. split; [done|].
        by apply handled_stop.
      * rewrite stopTimer_absent by done. split; [done|]. by apply handled_stop_absent.
    + cbn. split; [done|]. apply handled_unknown. unfold known_data. tauto.
  - unfold handleMessage. repeat case_bool_decide; subst.
    + cbn. split; [done|]. apply handled_start.
    + rewrite sendLogs_run. split; [done|]. apply handled_logs.
    + assert (Hcmd : ~ is_command text) by (unfold is_command; tauto).
      cbn. destruct (activeTimers w !! c) as [p|] eqn:Hp; cbn.
      * destruct (Hheap _ _ Hp) as [t Ht]. rewrite Ht.
        destruct (Z.eqb_spec (Duration t) 0) as [Hd|Hd].
        -- unfold handleTimerSetup. cbn. rewrite Hp. cbn. rewrite Ht.
           assert (Hlen : (p < length (heap w))%nat) by (by eapply lookup_lt_Some).
           case_bool_decide as Hn.
           ++ cbn. rewrite Ht. cbn. split; [done|]. by eapply handled_name.
           ++ destruct (time.ParseDuration frac (text +:+ "m")) as [d|] eqn:Hparse; cbn.
              ** rewrite Ht. cbn. rewrite list_lookup_insert_eq by done. cbn.
                 split; [done|]. by eapply handled_minutes.
              ** split; [done|]. by eapply handled_bad_minutes.
        -- cbn. split; [done|]. apply handled_hint; [done|].
           by unfold timer_of; rewrite Hp, Ht.
      * split; [done|]. apply handled_hint; [done|]. by unfold timer_of; rewrite Hp.
Qed.

Lemma store_ok_ext w1 w2 :
  activeTimers w2 = activeTimers w1 -> heap w2 = heap w1 -> store_ok w1 -> store_ok w2.
Proof. unfold store_ok, entry_ok. by intros -> ->. Qed.

Lemma store_ok_valid w c p : store_ok w -> activeTimers w !! c = Some p -> is_Some (heap w !! p).
Proof.
  intros [Hok _] Hc. specialize (Hok _ _ Hc). unfold entry_ok in Hok.
  destruct (heap w !! p); [by eexists|done].
Qed.

(** Overwriting a stored timer with one that has no stop time. *)
Lemma store_ok_update w (p : ptr) t' :
  StopTime t' = None -> store_ok w -> store_ok (with_heap (<[p := t']> (heap w)) w).
Proof.
  intros Hstop [Hok Hinj]. split; [|exact Hinj].
  intros c q Hc. specialize (Hok _ _ Hc). unfold entry_ok in *.
  cbn [heap with_heap] in *.
  destruct (decide (q = p)) as [->|Hne].
  - revert Hok. destruct (heap w !! p) eqn:Hp; [intros _|intros []].
    rewrite list_lookup_insert_eq; [done|]. by eapply lookup_lt_Some.
    
  - by rewrite list_lookup_insert_ne.
Qed.

Lemma store_ok_begin w c :
  store_ok w ->
  store_ok (with_activeTimers (<[c := length (heap w)]> (activeTimers w))
              (with_heap (heap w ++ [emptyTimer]) w)).
Proof.
  intros Hok. pose proof Hok as [Hent Hinj]. split.
  - intros c' q. cbn [activeTimers heap with_heap with_activeTimers]. unfold entry_ok.
    cbn [activeTimers heap with_heap with_activeTimers].
    destruct (decide (c' = c)) as [->|Hne].
    + rewrite lookup_insert_eq. intros [= <-]. by rewrite list_lookup_middle.
    + rewrite lookup_insert_ne by done. intros Hc.
      destruct (store_ok_valid _ _ _ Hok Hc) as [t Ht].
      specialize (Hent _ _ Hc). unfold entry_ok in Hent. rewrite Ht in Hent.
      rewrite lookup_app_l by (by eapply lookup_lt_Some). unfold ptr in *. by rewrite Ht.
  - intros c1 c2 q. cbn [activeTimers heap with_heap with_activeTimers].
    destruct (decide (c1 = c)) as [->|H1], (decide (c2 = c)) as [->|H2];
      rewrite ?lookup_insert_eq, ?lookup_insert_ne by done; try done.
    + intros [= <-] Hc. apply (store_ok_valid _ _ _ Hok) in Hc as [t Ht].
      apply lookup_lt_Some in Ht. lia.
    + intros Hc [= <-]. apply (store_ok_valid _ _ _ Hok) in Hc as [t Ht].
      apply lookup_lt_Some in Ht. lia.
    + apply Hinj.
Qed.

Lemma store_ok_stop w c (p : ptr) t' :
  activeTimers w !! c = Some p -> store_ok w ->
  store_ok (with_activeTimers (delete c (activeTimers w)) (with_heap (<[p := t']> (heap w)) w)).
Proof.
  intros Hc [Hent Hinj]. split.
  - intros c' q. cbn [activeTimers heap with_heap with_activeTimers]. unfold entry_ok.
    cbn [activeTimers heap with_heap with_activeTimers].
    destruct (decide (c' = c)) as [->|Hne]; [by rewrite lookup_delete_eq|].
    rewrite lookup_delete_ne by done. intros Hc'.
    assert (q <> p) by (intros ->; by specialize (Hinj _ _ _ Hc Hc')).
    rewrite list_lookup_insert_ne by done. by apply (Hent _ _ Hc').
  - intros c1 c2 q. cbn [activeTimers heap with_heap with_activeTimers]. intros H1%lookup_delete_Some H2%lookup_delete_Some.
    eapply Hinj; [apply H1|apply H2].
Qed.

Lemma stored_not_stopped w c p t :
  store_ok w -> activeTimers w !! c = Some p -> heap w !! p = Some t -> StopTime t = None.
Proof.
  intros [Hent _] Hc Ht. specialize (Hent _ _ Hc). unfold entry_ok in Hent.
  by rewrite Ht in Hent.
Qed.

Lemma handled_store_ok frac e w u w' gs :
  store_ok w -> handled frac e w u w' gs -> store_ok w'.
Proof.
  intros Hok Hh.
  destruct Hh as [c|c|c Hrej|c p t Hc Ht Hst|c Hc|c p t Hc Ht|c data Hk|c|c|c text Hcmd Hd
    |c text p t Hcmd Hc Ht Hd Hn|c text p t Hcmd Hc Ht Hd Hn Hp
    |c text p t d Hcmd Hc Ht Hd Hn Hp]; try exact Hok.
  - exact (store_ok_begin w c Hok).
  - apply (store_ok_ext (with_heap (<[p := apply_assign (SetStartTime (e_now e)) t]> (heap w)) w)).
    + unfold started_world. cbn. by rewrite ?activeTimers_logged.
    + unfold started_world. cbn. by rewrite ?heap_logged.
    + apply store_ok_update; [|done]. cbn. by eapply stored_not_stopped.
  - apply (store_ok_ext (with_activeTimers (delete c (activeTimers w))
             (with_heap (<[p := apply_assign (SetStopTime (e_now e)) t]> (heap w)) w))).
    + unfold stopped_world. cbn. by rewrite ?activeTimers_logged.
    + unfold stopped_world. cbn. by rewrite ?heap_logged.
    + by apply store_ok_stop.
  - apply (store_ok_update w p); [|done]. cbn. by eapply stored_not_stopped.
  - apply (store_ok_update w p); [|done]. cbn. by eapply stored_not_stopped.
Qed.

Lemma handled_mu frac e w u w' gs : handled frac e w u w' gs -> mu w' = mu w.
Proof.
  destruct 1; try done.
  - unfold started_world. cbn. by rewrite ?mu_logged.
  - unfold stopped_world. cbn. by rewrite ?mu_logged.
Qed.

Lemma store_ok_initial : store_ok initial_world.
Proof. split; intros *; cbn; by rewrite lookup_empty. Qed.

(** The handlers, one after the other, from a state in order: none
    panics, none waits for the mutex, and the state stays in order. *)
Lemma serve_ok frac us : forall w,
  mu w = false -> store_ok w ->
  r_status (serve frac us w) = Done /\ mu (r_world (serve frac us w)) = false /\
  store_ok (r_world (serve frac us w)).
Proof.
  induction us as [|[e u] us IH]; intros w Hmu Hok; [done|].
  cbn [serve].
  destruct (handleUpdate_handled frac e w u Hmu) as [Hdone Hh].
  { intros c p. by apply store_ok_valid. }
  rewrite Hdone. cbn.
  apply IH; [by rewrite (handled_mu _ _ _ _ _ _ Hh) | by eapply handled_store_ok].
Qed.

Lemma main_loop_serve frac e us : forall w,
  run e w (main_loop frac us) = serve frac (map (pair e) us) w.
Proof.
  induction us as [|u us IH]; intros w; [done|].
  cbn [main_loop map serve]. rewrite run_seq.
  destruct (r_status (run e w (handleUpdate frac u))); try done.
  by rewrite IH.
Qed.

Lemma after_ok updates : mu (after updates) = false /\ store_ok (after updates).
Proof.
  unfold after. rewrite main_loop_serve.
  destruct (serve_ok time.frac_exact (map (pair (calm sample_now)) updates) initial_world)
    as (_ & ? & ?); [done|apply store_ok_initial|done].
Qed.

Lemma handled_run frac e w u :
  mu w = false -> store_ok w ->
  r_status (run e w (handleUpdate frac u)) = Done /\
  handled frac e w u (r_world (run e w (handleUpdate frac u)))
    (r_spawned (run e w (handleUpdate frac u))).
Proof.
  intros Hmu Hok. apply handleUpdate_handled; [done|].
  intros c p. by apply store_ok_valid.
Qed.

(** X1: the main loop running alone is safe.  Whatever updates arrive,
    in whatever order, and whatever the clock and the file system do, no
    handler panics (no nil dereference, no unlock of a free mutex) and
    none waits for the mutex; after every update the mutex is free and
    the store is in order: every entry points at an allocated timer that
    was not stopped, and no two sessions share a timer. *)
Theorem main_loop_never_fails frac (us : list (Env * Update)) :
  r_status (serve frac us initial_world) = Done /\
  mu (r_world (serve frac us initial_world)) = false /\
  store_ok (r_world (serve frac us initial_world)) /\
  (forall e updates, r_status (run e initial_world (main_loop frac updates)) = Done).
Proof.
  destruct (serve_ok frac us initial_world) as (? & ? & ?); [done|apply store_ok_initial|].
  split_and!; try done.
  intros e updates. rewrite main_loop_serve.
  by destruct (serve_ok frac (map (pair e) updates) initial_world) as (? & _);
    [|apply store_ok_initial|].
Qed.

Lemma timer_of_ext w1 w2 c :
  activeTimers w2 !! c = activeTimers w1 !! c ->
  (forall p, activeTimers w1 !! c = Some p -> heap w2 !! p = heap w1 !! p) ->
  timer_of w2 c = timer_of w1 c.
Proof.
  unfold timer_of. intros -> H. destruct (activeTimers w1 !! c) as [p|]; [|done]. by apply H.
Qed.

(** X2: sessions are isolated.  Handling an update of one session, from
    a state in order, leaves the entry and the timer of every other
    session as they were. *)
Theorem sessions_are_isolated frac e w u c
  (Hmu : mu w = false) (Hok : store_ok w) (Hother : c <> chat_of u) :
  timer_of (r_world (run e w (handleUpdate frac u))) c = timer_of w c /\
  activeTimers (r_world (run e w (handleUpdate frac u))) !! c = activeTimers w !! c.
Proof.
  destruct (handled_run frac e w u Hmu Hok) as [_ Hh].
  pose proof Hok as [Hent Hinj].
  assert (Hp : forall c' (p q : ptr) t', activeTimers w !! c' = Some p -> c <> c' ->
             activeTimers w !! c = Some q -> <[p := t']> (heap w) !! q = heap w !! q).
  { intros c' p q t' Hc' Hne Hc. apply list_lookup_insert_ne. intros ->. by eauto. }
  destruct Hh as [c'|c'|c' Hrej|c' p t Hc Ht Hst|c' Hc|c' p t Hc Ht|c' data Hk|c'|c'
    |c' text Hcmd Hd |c' text p t Hcmd Hc Ht Hd Hn|c' text p t Hcmd Hc Ht Hd Hn Hp'
    |c' text p t d Hcmd Hc Ht Hd Hn Hp']; cbn [chat_of] in Hother; try done.
  - split; [|by cbn; rewrite lookup_insert_ne].
    apply timer_of_ext; cbn; [by rewrite lookup_insert_ne|].
    intros q Hq. apply lookup_app_l. destruct (store_ok_valid _ _ _ Hok Hq) as [t Ht].
    by eapply lookup_lt_Some.
  - unfold started_world. cbn. rewrite activeTimers_logged. split; [|done].
    apply timer_of_ext; cbn; rewrite ?activeTimers_logged, ?heap_logged; [done|].
    intros q Hq. cbn. by eapply Hp.
  - unfold stopped_world. cbn. split; [|by rewrite lookup_delete_ne].
    apply timer_of_ext; cbn; rewrite ?activeTimers_logged, ?heap_logged; cbn.
    + by rewrite lookup_delete_ne.
    + intros q Hq. by eapply Hp.
  - split; [|done]. apply timer_of_ext; cbn; [done|]. intros q Hq. by eapply Hp.
  - split; [|done]. apply timer_of_ext; cbn; [done|]. intros q Hq. by eapply Hp.
Qed.

Lemma sessions_are_isolated_witness :
  timer_of (r_world (run (calm sample_later) w_sizing
                       (handleUpdate time.frac_exact (CallbackQuery 8 "start_timer")))) 7
    = Some (mkTimer "Brew" time.zeroTime 0 None).
Proof.
  rewrite (proj1 (sessions_are_isolated time.frac_exact (calm sample_later) w_sizing
                    (CallbackQuery 8 "start_timer") 7
                    (proj1 (after_ok begin_brew)) (proj2 (after_ok begin_brew))
                    ltac:(discriminate))).
  reflexivity.
Defined.

Lemma string_app_nil_r (s : string) : s +:+ EmptyString = s.
Proof.
  induction s as [|c s IH]; [done|].
  change (String c s +:+ EmptyString) with (String c (s +:+ EmptyString)). by rewrite IH.
Qed.

Lemma logged_content e s w :
  file_content (logged e s w) logFile = file_content w logFile +:+ log_written e s.
Proof.
  unfold logged, log_written.
  destruct (e_open_err e); [by rewrite string_app_nil_r|].
  destruct (e_write_err e); unfold file_content; cbn; by rewrite lookup_insert_eq.
Qed.

Lemma logged_other_files e s w name :
  name <> logFile -> fs (logged e s w) !! name = fs w !! name.
Proof.
  intros Hne. unfold logged.
  destruct (e_open_err e); [done|].
  destruct (e_write_err e); cbn; by rewrite lookup_insert_ne.
Qed.

Lemma logged_stderr e s w :
  stderr (logged e s w) = stderr w \/ exists line, stderr (logged e s w) = stderr w ++ [line].
Proof.
  unfold logged. destruct (e_open_err e); [right; by eexists|].
  destruct (e_write_err e); [right; by eexists|by left].
Qed.

Ltac handled_cases Hh :=
  destruct Hh as [c'|c'|c' Hrej|c' p t Hc Ht Hst|c' Hc|c' p t Hc Ht|c' data Hk|c'|c'
    |c' text Hcmd Hd |c' text p t Hcmd Hc Ht Hd Hn|c' text p t Hcmd Hc Ht Hd Hn Hp'
    |c' text p t d Hcmd Hc Ht Hd Hn Hp'].

(** X3: the log is append-only.  Whatever update is handled, and whether
    the file operations succeed or fail, the log file afterwards is the
    log file before followed by some text (possibly none): nothing
    written earlier is lost or changed.  No other file is touched. *)
Theorem log_is_append_only frac e w u (Hmu : mu w = false) (Hok : store_ok w) :
  let w' := r_world (run e w (handleUpdate frac u)) in
  (exists suffix, file_content w' logFile = file_content w logFile +:+ suffix) /\
  (forall name, name <> logFile -> fs w' !! name = fs w !! name).
Proof.
  intros w'. subst w'. destruct (handled_run frac e w u Hmu Hok) as [_ Hh].
  handled_cases Hh.
  all: try (split; [exists EmptyString; by rewrite string_app_nil_r | done]).
  - split.
    + eexists. unfold started_world. cbn.
      rewrite file_content_with_sent, logged_content, file_content_with_heap. done.
    + intros name Hne. unfold started_world. cbn. by rewrite logged_other_files.
  - split.
    + eexists. unfold stopped_world. cbn.
      rewrite file_content_with_sent, file_content_with_activeTimers, logged_content,
        file_content_with_heap. done.
    + intros name Hne. unfold stopped_world. cbn. by rewrite logged_other_files.
Qed.

Lemma log_is_append_only_witness :
  exists suffix,
    file_content (r_world (run (calm sample_later) w_running
                             (handleUpdate time.frac_exact (CallbackQuery 7 "stop_timer"))))
      logFile = file_content w_running logFile +:+ suffix.
Proof.
  apply (log_is_append_only time.frac_exact (calm sample_later) w_running
           (CallbackQuery 7 "stop_timer")); apply after_ok.
Defined.

(** X4: one answer per update.  Every text message, and every button the
    program knows, is answered with exactly one message, sent to the
    chat the update came from; a button with unknown data changes
    nothing at all. *)
Theorem one_answer_per_update frac e w u (Hmu : mu w = false) (Hok : store_ok w) :
  let w' := r_world (run e w (handleUpdate frac u)) in
  (answered u -> exists m, sent w' = sent w ++ [m] /\ msg_chat m = chat_of u) /\
  (~ answered u -> w' = w).
Proof.
  intros w'. subst w'. destruct (handled_run frac e w u Hmu Hok) as [_ Hh].
  handled_cases Hh; cbn [answered chat_of]; unfold known_data in *.
  all: split; [intros Hyes|intros Hno; try (exfalso; apply Hno; tauto)]; try done.
  all: try (by eexists).
Qed.

Lemma one_answer_per_update_witness :
  exists m,
    sent (r_world (run (calm sample_later) w_naming
                     (handleUpdate time.frac_exact (Message 7 "Brew"))))
      = sent w_naming ++ [m] /\ msg_chat m = 7.
Proof.
  apply (one_answer_per_update time.frac_exact (calm sample_later) w_naming (Message 7 "Brew"));
    [apply after_ok | apply after_ok | exact I].
Defined.



(** X6: handlers release their files.  After any update no file
    descriptor is open that was not open before; the diagnostic channel
    receives nothing when the file operations succeed, and at most one
    line otherwise. *)
Theorem handlers_release_files frac e w u (Hmu : mu w = false) (Hok : store_ok w) :
  let w' := r_world (run e w (handleUpdate frac u)) in
  (forall f file, fdtab w' !! f = Some file -> fdtab w !! f = Some file) /\
  (io_ok e -> stderr w' = stderr w) /\
  (stderr w' = stderr w \/ exists line, stderr w' = stderr w ++ [line]).
Proof.
  intros w'. subst w'. destruct (handled_run frac e w u Hmu Hok) as [_ Hh].
  handled_cases Hh; try (split_and!; [done|done|by left]).
  - unfold started_world. cbn. split_and!.
    + intros f file H. apply fdtab_logged in H. exact H.
    + intros Hio. by rewrite stderr_logged_ok.
    + apply (logged_stderr e _ (with_heap _ w)).
  - unfold stopped_world. cbn. split_and!.
    + intros f file H. apply fdtab_logged in H. exact H.
    + intros Hio. by rewrite stderr_logged_ok.
    + apply (logged_stderr e _ (with_heap _ w)).
Qed.

Lemma handlers_release_files_witness :
  stderr (r_world (run (calm sample_later) w_running
                     (handleUpdate time.frac_exact (CallbackQuery 7 "stop_timer"))))
    = stderr w_running.
Proof.
  apply (handlers_release_files time.frac_exact (calm sample_later) w_running
           (CallbackQuery 7 "stop_timer")); [apply after_ok | apply after_ok | by split].
Defined.

(** * The log sink *)

Lemma logged_open_failed e s w :
  e_open_err e = true ->
  fs (logged e s w) = fs w /\ stderr (logged e s w) = stderr w ++ ["Ошибка записи в лог:"].
Proof. intros Ho. unfold logged. by rewrite Ho. Qed.

Lemma logged_short_write e s w n :
  e_open_err e = false -> e_write_err e = Some n ->
  file_content (logged e s w) logFile = file_content w logFile +:+ take_string n s /\
  stderr (logged e s w) = stderr w ++ ["Ошибка при сохранении логов:"].
Proof.
  intros Ho Hw. split.
  - rewrite logged_content. unfold log_written. by rewrite Ho, Hw.
  - unfold logged. by rewrite Ho, Hw.
Qed.

(** C6 (amended): one call of [logTimer] opens [timers.log] with
    [O_APPEND] (and create, write-only), ends without a panic, and
    leaves no descriptor open, whatever the file operations do.  When
    they succeed it appends to whatever the file held exactly the entry
    [<action> | Название: <name> | Начало: <start> | Окончание: <stop>]
    followed by a newline, and writes no diagnostic.  When the open
    fails the files stay as they were; when the write fails after [n]
    bytes, the first [n] bytes of the entry are appended; either failure
    puts one line on the diagnostic channel.  No other file is touched.
    Times with a four-digit year print as [YYYY-MM-DD HH:MM:SS].  The
    entry is one line, its only newline the last byte, when the action
    and the name contain no newline.  The stop field is "В процессе"
    while the timer has no stop time; that is the case for the start
    entry of every Confirm that runs, uninterrupted, from a state whose
    stored timers were not stopped. *)
Theorem C6_logTimer_appends_one_line e w p t action
  (Htimer : heap w !! p = Some t) :
  let r := run e w (logTimer p action) in
  let stop := match StopTime t with
              | Some s => time.Format s
              | None => "В процессе"
              end in
  let line := action +:+ " | Название: " +:+ Name t +:+ " | Начало: "
                +:+ time.Format (StartTime t) +:+ " | Окончание: " +:+ stop +:+ newline in
  has_flag log_flags O_APPEND = true /\
  (exists k, logTimer p action = ReadTimer p (fun t0 => OsOpenFile logFile log_flags (k t0))) /\
  r_status r = Done /\ r_spawned r = [] /\
  (io_ok e ->
   file_content (r_world r) logFile = file_content w logFile +:+ line /\
   stderr (r_world r) = stderr w) /\
  (e_open_err e = true ->
   fs (r_world r) = fs w /\
   stderr (r_world r) = stderr w ++ ["Ошибка записи в лог:"]) /\
  (forall n, e_open_err e = false -> e_write_err e = Some n ->
   file_content (r_world r) logFile = file_content w logFile +:+ take_string n line /\
   stderr (r_world r) = stderr w ++ ["Ошибка при сохранении логов:"]) /\
  (forall name, name <> logFile -> fs (r_world r) !! name = fs w !! name) /\
  (forall f file, fdtab (r_world r) !! f = Some file -> fdtab w !! f = Some file) /\
  (time.valid_time (StartTime t) = true ->
   is_timestamp (time.Format (StartTime t)) = true) /\
  (forall s, StopTime t = Some s -> time.valid_time s = true ->
             is_timestamp (time.Format s) = true) /\
  (count_char nl action = O -> count_char nl (Name t) = O ->
   time.valid_time (StartTime t) = true ->
   (forall s, StopTime t = Some s -> time.valid_time s = true) ->
   count_char nl line = 1%nat) /\
  (forall chatID,
     mu w = false -> store_ok w -> activeTimers w !! chatID = Some p ->
     Name t <> EmptyString -> Duration t <> 0 -> io_ok e ->
     file_content (r_world (run e w (handleCallback chatID "confirm_timer"))) logFile
       = file_content w logFile +:+
           (action_start +:+ " | Название: " +:+ Name t +:+ " | Начало: "
              +:+ time.Format (e_now e) +:+ " | Окончание: " +:+ in_progress +:+ newline)).
Proof.
  intros r stop line. subst r. rewrite (logTimer_run e w p t) by done.
  cbn [r_status r_world r_spawned].
  change (log_entry t action) with line.
  split; [reflexivity|]. split; [by eexists|].
  split; [done|]. split; [done|].
  split. { intros Hio. split; [by apply content_logged_ok | by apply stderr_logged_ok]. }
  split. { apply logged_open_failed. }
  split. { intros n. apply logged_short_write. }
  split. { intros name. apply logged_other_files. }
  split. { apply fdtab_logged. }
  split. { apply Format_is_timestamp. }
  split. { intros s _. apply Format_is_timestamp. }
  split.
  { intros Ha Hn Hs Hstop. subst line.
    rewrite !count_char_app, Ha, Hn.
    rewrite (timestamp_no_nl _ (Format_is_timestamp _ Hs)).
    assert (count_char nl stop = O) as ->; [|reflexivity].
    subst stop. destruct (StopTime t) as [s|]; [|reflexivity].
    apply timestamp_no_nl, Format_is_timestamp. by apply Hstop. }
  intros chatID Hmu Hok Hentry Hname Hdur Hio.
  rewrite handleCallback_confirm.
  destruct (startTimer_effect e w chatID p t) as (_&_&_&_&_&_&Hlog&_); try done.
  { by apply startable_spec. }
  destruct (Hlog Hio) as [-> _]. f_equal.
  unfold log_entry. cbn [Name StartTime StopTime].
  by rewrite (stored_not_stopped w chatID p t).
Qed.

Lemma C6_logTimer_appends_one_line_witness :
  heap w_running !! 0%nat = Some (mkTimer "Brew" sample_now (2 * time.Minute) None) /\
  file_content (r_world (run (calm sample_later) w_running (logTimer 0%nat action_start))) logFile
    = file_content w_running logFile +:+
        ("Запуск | Название: Brew | Начало: 2024-05-17 09:30:00 | Окончание: В процессе"
           +:+ newline).
Proof.
  split; [reflexivity|].
  pose proof (C6_logTimer_appends_one_line (calm sample_later) w_running 0%nat
                (mkTimer "Brew" sample_now (2 * time.Minute) None) action_start eq_refl)
    as (_ & _ & _ & _ & Hok & _).
  apply Hok. split; reflexivity.
Defined.

(** C6, as stated, fails in four ways.  The entry is not always one
    line: a timer whose name was typed on two lines gives a start entry
    of two lines.  A call does not always append an entry: when the open
    fails nothing is written, and when the write fails after twelve
    bytes the file ends in the unterminated prefix "Остано".  A start
    entry does not always carry the marker: when a Confirm of the running
    timer has passed its guard and the countdown stops the timer before
    the Confirm goes on, the start entry carries the stop time. *)
Lemma C6_counterexample :
  let r := run (calm sample_now) w_two_lines (handleCallback 7 "confirm_timer") in
  let r_open := run (mkEnv sample_later true None) w_running (logTimer 0%nat action_stop) in
  let r_short :=
    run (mkEnv sample_later false (Some 12%nat)) w_running (logTimer 0%nat action_stop) in
  let raced := run_schedule confirm_race confirm_race_start in
  let first_line :=
    "Запуск | Название: Brew | Начало: 2024-05-17 09:30:00 | Окончание: В процессе"
      +:+ newline in
  (timer_of w_two_lines 7
     = Some (mkTimer ("Tea" +:+ newline +:+ "Time") time.zeroTime (2 * time.Minute) None) /\
   fs w_two_lines !! logFile = None /\
   fs (r_world r) !! logFile
     = Some ("Запуск | Название: Tea" +:+ newline
               +:+ "Time | Начало: 2024-05-17 09:30:00 | Окончание: В процессе" +:+ newline) /\
   count_char nl (file_content (r_world r) logFile) = 2%nat) /\
  (fs w_running !! logFile = Some first_line /\
   fs (r_world r_open) !! logFile = Some first_line /\
   fs (r_world r_short) !! logFile = Some (first_line +:+ "Остано")) /\
  ((fun c : Config => map is_return c.2) <$> raced = Some [true; true; false] /\
   (fun c : Config => fs c.1 !! logFile) <$> raced
     = Some (Some (first_line
         +:+ "Остановлен | Название: Brew | Начало: 2024-05-17 09:30:00 | Окончание: 2024-05-17 09:32:00"
         +:+ newline
         +:+ "Запуск | Название: Brew | Начало: 2024-05-17 09:32:00 | Окончание: 2024-05-17 09:32:00"
         +:+ newline))).
Proof. cbv zeta. repeat split; vm_compute; reflexivity. Qed.

(** * Further properties of the handlers, the log and the parser *)

Lemma leadingInt_from_length s : forall x v r,
  time.leadingInt_from x s = Some (v, r) -> (String.length r <= String.length s)%nat.
Proof.
  induction s as [|c s IH]; intros x v r; cbn.
  - intros [= <- <-]. done.
  - repeat case_match; try done.
    + intros Hrec%IH. lia.
    + intros [= <- <-]. done.
Qed.

Lemma leadingFraction_from_length s : forall x k o,
  (String.length (time.leadingFraction_from x k o s).2 <= String.length s)%nat.
Proof.
  induction s as [|c s IH]; intros x k o; cbn; [done|].
  repeat case_match; cbn; try done; etrans; try apply IH; lia.
Qed.

Lemma span_unit_length s :
  String.length s
    = (String.length (time.span_unit s).1 + String.length (time.span_unit s).2)%nat.
Proof.
  induction s as [|c s IH]; cbn; [done|].
  case_match; cbn; [done|]. destruct (time.span_unit s) as [u r]. cbn in *. lia.
Qed.

Lemma parse_group_consumes frac d s d' s' :
  time.parse_group frac d s = Some (d', s') -> (String.length s' < String.length s)%nat.
Proof.
  unfold time.parse_group. destruct (negb (time.starts_number s)); [done|].
  destruct (time.leadingInt s) as [[v s1]|] eqn:Hint; [|done].
  apply leadingInt_from_length in Hint.
  set (frac_part := match s1 with
                    | String c r =>
                        if bool_decide (c = "."%char) then
                          let '(f, k, s2) := time.leadingFraction r in
                          (f, k, negb (String.length r =? String.length s2)%nat, s2)
                        else (0, O, false, s1)
                    | EmptyString => (0, O, false, s1)
                    end).
  assert (Hs2 : (String.length frac_part.2 <= String.length s1)%nat).
  { subst frac_part. destruct s1 as [|c r]; [done|]. case_bool_decide; [|done].
    pose proof (leadingFraction_from_length r 0 O false) as Hfr.
    unfold time.leadingFraction. destruct (time.leadingFraction_from 0 0 false r) as [[f k] s2].
    cbn in *. lia. }
  destruct frac_part as [[[f k] post] s2]. cbn in Hs2.
  case_match; [done|].
  pose proof (span_unit_length s2) as Hu.
  destruct (time.span_unit s2) as [u s3]. cbn in Hu.
  case_bool_decide as Hne; [done|].
  assert (String.length u <> O) by (by destruct u).
  repeat case_match; try done. all: intros [= <- <-]. all: lia.
Qed.

Lemma parse_groups_fuel frac fuel1 : forall fuel2 d s,
  (String.length s <= fuel1)%nat -> (String.length s <= fuel2)%nat ->
  time.parse_groups frac fuel1 d s = time.parse_groups frac fuel2 d s.
Proof.
  induction fuel1 as [|fuel1 IH]; intros fuel2 d s H1 H2.
  - destruct s; [by destruct fuel2|cbn in H1; lia].
  - destruct s as [|c s]; [by destruct fuel2|].
    destruct fuel2 as [|fuel2]; [cbn in H2; lia|].
    cbn [time.parse_groups].
    destruct (time.parse_group frac d (String c s)) as [[d' s']|] eqn:Hg; [|done].
    apply parse_group_consumes in Hg. cbn in *. apply IH; lia.
Qed.

(** X12: the parsing loop of [time.ParseDuration] ends: every group it
    accepts leaves a strictly shorter rest, so the length of the input
    bounds the rounds and any larger bound gives the same result. *)
Theorem ParseDuration_loop_ends frac fuel d s (Hfuel : (String.length s <= fuel)%nat) :
  time.parse_groups frac fuel d s = time.parse_groups frac (String.length s) d s /\
  (forall d' s', time.parse_group frac d s = Some (d', s') ->
                 (String.length s' < String.length s)%nat).
Proof.
  split; [by apply parse_groups_fuel|]. apply parse_group_consumes.
Qed.

Lemma ParseDuration_loop_ends_witness :
  time.parse_groups time.frac_exact 100 0 "1h30m"
    = time.parse_groups time.frac_exact (String.length "1h30m") 0 "1h30m".
Proof.
  apply (ParseDuration_loop_ends time.frac_exact 100 0 "1h30m"). cbn. lia.
Defined.

(** X7: while a chat's timer has no duration yet and no name, any text
    other than the two commands becomes the name exactly as typed: the
    handler stores it in the timer, leaves start time, duration and stop
    time alone, and asks for the minutes.  An empty text therefore leaves
    the timer as it was, and the next text is taken as the name again. *)
Theorem name_is_taken_verbatim frac e w c p t text
  (Hentry : activeTimers w !! c = Some p) (Htimer : heap w !! p = Some t)
  (Hdur : Duration t = 0) (Hname : Name t = EmptyString)
  (Hcmd : text <> "/start" /\ text <> "/logs") :
  let r := run e w (handleMessage frac c text) in
  r = mkResult Done
        (reply c msg_ask_minutes
           (with_heap (<[p := mkTimer text (StartTime t) 0 (StopTime t)]> (heap w)) w))
        [] /\
  timer_of (r_world r) c = Some (mkTimer text (StartTime t) 0 (StopTime t)) /\
  (text = EmptyString -> timer_of (r_world r) c = Some t).
Proof.
  intros r. subst r. destruct Hcmd as [Hc1 Hc2].
  rewrite handleMessage_text by done.
  assert (Hlen : (p < length (heap w))%nat) by (by eapply lookup_lt_Some).
  unfold handleTimerSetup. cbn. rewrite Hentry. cbn. rewrite Htimer, Hdur. cbn.
  rewrite Hentry. cbn. rewrite Htimer.
  rewrite bool_decide_eq_true_2 by done. cbn. rewrite Htimer. cbn. rewrite Hdur.
  split; [done|].
  assert (Ht : timer_of
    (reply c msg_ask_minutes
       (with_heap (<[p := mkTimer text (StartTime t) 0 (StopTime t)]> (heap w)) w)) c
    = Some (mkTimer text (StartTime t) 0 (StopTime t))).
  { unfold timer_of. cbn. rewrite Hentry. by apply list_lookup_insert_eq. }
  cbn [r_world]. split; [done|]. intros ->. etrans; [exact Ht|].
  destruct t; cbn in *. by subst.
Qed.

Lemma name_is_taken_verbatim_witness :
  timer_of (r_world (run (calm sample_now) w_naming (handleMessage time.frac_exact 7 "Brew"))) 7
    = Some (mkTimer "Brew" time.zeroTime 0 None).
Proof.
  apply (name_is_taken_verbatim time.frac_exact (calm sample_now) w_naming 7 0%nat emptyTimer
           "Brew"); solve [reflexivity | split; discriminate].
Defined.


Lemma sizing_text_run frac e w c p t text :
  activeTimers w !! c = Some p -> heap w !! p = Some t ->
  Duration t = 0 -> Name t <> EmptyString -> text <> "/start" -> text <> "/logs" ->
  run e w (handleMessage frac c text) =
    match time.ParseDuration frac (text +:+ "m") with
    | Some d =>
        mkResult Done
          (with_sent (sent w ++ [confirm_msg c (Name t) d])
             (with_heap (<[p := mkTimer (Name t) (StartTime t) d (StopTime t)]> (heap w)) w))
          []
    | None => mkResult Done (reply c msg_bad_minutes w) []
    end.
Proof.
  intros Hentry Htimer Hdur Hname Hc1 Hc2.
  rewrite handleMessage_text by done.
  assert (Hlen : (p < length (heap w))%nat) by (by eapply lookup_lt_Some).
  unfold handleTimerSetup. cbn. rewrite Hentry. cbn. rewrite Htimer, Hdur. cbn.
  rewrite Hentry. cbn. rewrite Htimer.
  rewrite bool_decide_eq_false_2 by done.
  destruct (time.ParseDuration frac (text +:+ "m")) as [d|]; cbn; [|done].
  rewrite Htimer. cbn. by rewrite list_lookup_insert_eq.
Qed.

(** X8: a minutes text that [time.ParseDuration] reads as zero is accepted
    like any other: the handler sends the confirmation prompt and the
    timer is as before, its duration still zero.  Pressing Confirm after
    it is rejected with the notice that the timer is not configured. *)
Theorem zero_minutes_is_a_dead_end frac e e' w c p t text
  (Hmu : mu w = false)
  (Hentry : activeTimers w !! c = Some p) (Htimer : heap w !! p = Some t)
  (Hdur : Duration t = 0) (Hname : Name t <> EmptyString)
  (Hcmd : text <> "/start" /\ text <> "/logs")
  (Hzero : time.ParseDuration frac (text +:+ "m") = Some 0) :
  let r := run e w (handleMessage frac c text) in
  r = mkResult Done (with_sent (sent w ++ [confirm_msg c (Name t) 0]) w) [] /\
  run e' (r_world r) (handleCallback c "confirm_timer")
    = mkResult Done (reply c msg_not_configured (r_world r)) [].
Proof.
  intros r. subst r. destruct Hcmd as [Hc1 Hc2].
  rewrite (sizing_text_run frac e w c p t text) by done. rewrite Hzero.
  assert (Hsame : <[p := mkTimer (Name t) (StartTime t) 0 (StopTime t)]> (heap w) = heap w).
  { apply list_insert_id. destruct t; cbn in *. subst. exact Htimer. }
  rewrite Hsame.
  assert (Hw : with_heap (heap w) w = w) by (by destruct w).
  rewrite Hw. split; [done|]. cbn [r_world].
  rewrite handleCallback_confirm. apply startTimer_rejected; [done|].
  unfold timer_of. cbn. rewrite Hentry, Htimer.
  unfold startable. by rewrite Hdur, orb_true_r.
Qed.

Lemma zero_minutes_is_a_dead_end_witness :
  run (calm sample_later)
      (r_world (run (calm sample_now) w_sizing (handleMessage time.frac_exact 7 "0")))
      (handleCallback 7 "confirm_timer")
    = mkResult Done
        (reply 7 msg_not_configured
           (r_world (run (calm sample_now) w_sizing (handleMessage time.frac_exact 7 "0"))))
        [].
Proof.
  apply (zero_minutes_is_a_dead_end time.frac_exact (calm sample_now) (calm sample_later)
           w_sizing 7 0%nat (mkTimer "Brew" time.zeroTime 0 None) "0");
    solve [reflexivity | discriminate | split; discriminate].
Defined.








Lemma returned_prog chatID c : c <> Crash -> is_return (prog_of chatID c) = returned c.
Proof. by destruct c. Qed.

Section RaceProgress.

Variables (w : World) (chatID : Z) (p : ptr) (t : Timer).
Lemma race_inv_moves e w' a b :
  race_inv w chatID p t w' a b ->
  a <> Crash /\ b <> Crash /\
  ((returned a = true /\ returned b = true) \/
   is_Some (pc_step chatID e w' a) \/ is_Some (pc_step chatID e w' b)).
Proof.
  intros HI.
  destruct HI as [w' b Hm Hag Hsent Hb | w' b Hm Hag Hsent Hb
    | w' a b now oerr werr Hm Hsent Hc Hb | w' b now oerr werr Hm Hsent Hc
    | w' a b now oerr werr said locked noticed Hag Hm Ht Hl Hsent
    | w' a b now oerr werr said locked noticed Hag Hm Ht Hl Hsent ].
  - split; [done|]. split; [by destruct Hb as [-> | ->]|].
    right. left. cbn. rewrite Hm. first [done | by eexists].
  - split; [done|]. split; [by destruct Hb as [-> | ->]|].
    right. right. destruct Hb as [-> | ->]; cbn; rewrite ?Hm; first [done | by eexists].
  - split; [by destruct a|]. split; [by destruct Hb as [-> | ->]|].
    right. left. destruct a; try done; cbn; rewrite ?Hm; repeat case_match; first [done | by eexists].
  - split; [done|]. split; [by destruct b|].
    right. right. destruct b; try done; cbn; rewrite ?Hm; repeat case_match; first [done | by eexists].
  - split; [by destruct a|]. split; [by destruct b as [| | |[]| | | | | | | | | | | | | | | | | | |]|].
    destruct a; try done; cbn in Ht; destruct_and?; subst.
    + right. left. cbn. case_match; first [done | by eexists].
    + right. left. cbn. first [done | by eexists].
    + destruct b as [| | |[]| | | | | | | | | | | | | | | | | | |]; try done;
        cbn in Hl; destruct_and?; subst;
        first [ by left | right; right; cbn; repeat case_match; first [done | by eexists] ].
  - split; [by destruct a as [| | |[]| | | | | | | | | | | | | | | | | | |]|]. split; [by destruct b|].
    destruct b; try done; cbn in Ht; destruct_and?; subst.
    + right. right. cbn. case_match; first [done | by eexists].
    + right. right. cbn. first [done | by eexists].
    + destruct a as [| | |[]| | | | | | | | | | | | | | | | | | |]; try done;
        cbn in Hl; destruct_and?; subst;
        first [ by left | right; left; cbn; repeat case_match; first [done | by eexists] ].
Qed.

End RaceProgress.

(** X11: a manual stop racing the countdown's expiry never deadlocks and
    never panics: after any schedule of the two goroutines, either both
    have returned or one of them can take a step at once. *)
Theorem stop_race_never_gets_stuck w chatID p t s c' e
  (Hmu : mu w = false)
  (Hentry : activeTimers w !! chatID = Some p) (Htimer : heap w !! p = Some t)
  (Hrun : run_schedule s (w, [stopTimer chatID false; expire chatID]) = Some c') :
  existsb is_panic c'.2 = false /\
  (forallb is_return c'.2 = true \/
   exists i c'', sched_step i e (clock c'.1) c' = Some c'').
Proof.
  destruct (race_inv_run w chatID p t Hmu Hentry Htimer s w (AtStop false) AtExpire c')
    as (w' & a & b & -> & HI); [by apply race_inv_initial|done|].
  destruct (race_inv_moves w chatID p t e (with_clock (clock w') w') a b) as (Ha & Hb & Hmove).
  { destruct w'. exact HI. }
  assert (Hnp : existsb is_panic [prog_of chatID a; prog_of chatID b] = false).
  { cbn. destruct a, b; done. }
  split; [done|].
  destruct Hmove as [[Hra Hrb] | [[[w'' a'] Hs] | [[w'' b'] Hs]]].
  - left. cbn. by rewrite !returned_prog, Hra, Hrb.
  - right. exists 0%nat. eexists. unfold sched_step. rewrite Hnp, Z.ltb_irrefl.
    cbn [lookup list_lookup fst]. rewrite prog_of_step, Hs. done.
  - right. exists 1%nat. eexists. unfold sched_step. rewrite Hnp, Z.ltb_irrefl.
    cbn [lookup list_lookup fst]. rewrite prog_of_step, Hs. done.
Qed.

Lemma stop_race_never_gets_stuck_witness :
  existsb is_panic
    (default race_start (run_schedule race_schedule race_start)).2 = false.
Proof.
  pose proof (stop_race_never_gets_stuck w_running 7 0%nat
                (mkTimer "Brew" sample_now (2 * time.Minute) None)
                race_schedule (default race_start (run_schedule race_schedule race_start))
                (calm sample_later) eq_refl eq_refl eq_refl
                ltac:(vm_compute; reflexivity))
    as (Hnp & _).
  exact Hnp.
Defined.

